(** * Docker and Docker Swarm process proxies

    A shallow embedding of
    [enterprise_gateway/services/processproxies/docker_swarm.py]:
    the two classes [DockerSwarmProcessProxy] and [DockerProcessProxy],
    the Python values they inspect, the exceptions they raise, and the
    part of the Docker engine they talk to through the module-level
    [client]. *)

From Stdlib Require Import Ascii ZArith Lia.
From stdpp Require Import base list strings gmap.

Local Open Scope Z_scope.
Set Warnings "-register-all".

(** ** Python values *)

(** The JSON-like values found in [container.attrs] and in a task
    dictionary.  A dictionary is kept as an association list; [dict_lookup]
    reads the first binding of a key. *)
Inductive pyval : Type :=
| PNone
| PInt (z : Z)
| PStr (s : string)
| PList (l : list pyval)
| PDict (d : list (string * pyval)).

(** Exceptions, and the pieces of an f-string with its holes filled in but
    not yet rendered to text. *)
Inductive exn : Type :=
| RuntimeError (msg : list part)
| KeyError (k : string)
| IndexError
| TypeError
| AttributeError
| NotFound (explanation : string)
| APIError (explanation : string)
with part : Type :=
| Lit (s : string)
| Fmt (v : pyval)
| FmtExn (e : exn).

Definition fstring : Type := list part.

Inductive result (A : Type) : Type :=
| Ok (a : A)
| Raise (e : exn).
Arguments Ok {A} a.
Arguments Raise {A} e.

(** [isinstance(err, NotFound)] *)
Definition is_NotFound (e : exn) : bool :=
  match e with NotFound _ => true | _ => false end.

Definition nonempty_string (s : string) : bool :=
  match s with EmptyString => false | String _ _ => true end.

(** Truth value of a Python object in an [if]. *)
Definition truthy (v : pyval) : bool :=
  match v with
  | PNone => false
  | PInt z => negb (z =? 0)
  | PStr s => nonempty_string s
  | PList l => match l with [] => false | _ :: _ => true end
  | PDict d => match d with [] => false | _ :: _ => true end
  end.

(** Truth value of an attribute that holds [None] or a [str]. *)
Definition truthy_str (o : option string) : bool :=
  match o with None => false | Some s => nonempty_string s end.

(** Truth value of [iteration : int | None]. *)
Definition truthy_int (o : option Z) : bool :=
  match o with None => false | Some z => negb (z =? 0) end.

Definition of_str (o : option string) : pyval :=
  match o with None => PNone | Some s => PStr s end.

Definition of_int (o : option Z) : pyval :=
  match o with None => PNone | Some z => PInt z end.

Fixpoint dict_lookup (k : string) (d : list (string * pyval)) : option pyval :=
  match d with
  | [] => None
  | (k', v) :: d' => if String.eqb k' k then Some v else dict_lookup k d'
  end.

(** [v[k]] for a string key. *)
Definition getitem (v : pyval) (k : string) : result pyval :=
  match v with
  | PDict d => match dict_lookup k d with
               | Some x => Ok x
               | None => Raise (KeyError k)
               end
  | _ => Raise TypeError
  end.

(** [v[0]] *)
Definition getitem0 (v : pyval) : result pyval :=
  match v with
  | PList l => match l with x :: _ => Ok x | [] => Raise IndexError end
  | PStr s => match s with
              | String c _ => Ok (PStr (String c EmptyString))
              | EmptyString => Raise IndexError
              end
  | PDict _ => Raise (KeyError "0")
  | _ => Raise TypeError
  end.

(** [v.get(k)] *)
Definition dict_get (v : pyval) (k : string) : result pyval :=
  match v with
  | PDict d => match dict_lookup k d with
               | Some x => Ok x
               | None => Ok PNone
               end
  | _ => Raise AttributeError
  end.

(** [len(v)] *)
Definition py_len (v : pyval) : result nat :=
  match v with
  | PStr s => Ok (String.length s)
  | PList l => Ok (length l)
  | PDict d => Ok (length d)
  | _ => Raise TypeError
  end.

(** [str.lower] on ASCII text: the letters A to Z are the ones that change.
    A string is a string of bytes here; on a string that [is_ascii] accepts
    this is what Python computes, while a cased letter outside ASCII, which
    Python would lowercase too, is left as it is. *)
Definition lower_ascii (c : ascii) : ascii :=
  let n := nat_of_ascii c in
  if ((65 <=? n) && (n <=? 90))%nat then ascii_of_nat (n + 32) else c.

Fixpoint lower (s : string) : string :=
  match s with
  | EmptyString => EmptyString
  | String c s' => String (lower_ascii c) (lower s')
  end.



(** [v.lower()] *)
Definition str_lower (v : pyval) : result string :=
  match v with
  | PStr s => Ok (lower s)
  | _ => Raise AttributeError
  end.

(** [s.split(sep)] for a one-character separator. *)
Fixpoint split (sep : ascii) (s : string) : list string :=
  match s with
  | EmptyString => [EmptyString]
  | String c s' =>
      if Ascii.eqb c sep then EmptyString :: split sep s'
      else match split sep s' with
           | w :: ws => String c w :: ws
           | [] => [String c EmptyString]
           end
  end.

(** [v.split("/")[0]] *)
Definition str_split_slash_0 (v : pyval) : result string :=
  match v with
  | PStr s => match split "/" s with
              | w :: _ => Ok w
              | [] => Raise IndexError
              end
  | _ => Raise AttributeError
  end.

(** Whether the character occurs in the string. *)
Fixpoint occurs (c : ascii) (s : string) : bool :=
  match s with
  | EmptyString => false
  | String c' s' => Ascii.eqb c' c || occurs c s'
  end.

(** ** The Docker engine behind [client] *)

(** What the engine holds for a container: its id, its labels, the [name]
    and [status] properties of the client object, its [attrs] dictionary,
    and how the engine answers a [remove] of it: [None] when the removal
    goes through, [Some e] when the call raises [e]. *)
Record Container : Type := mkContainer {
  c_id : string;
  c_labels : list (string * string);
  c_name : option string;
  c_status : option string;
  c_attrs : pyval;
  c_remove : option exn
}.

(** A service, with every task the engine knows for it. *)
Record Service : Type := mkService {
  s_id : string;
  s_labels : list (string * string);
  s_name : string;
  s_tasks : list pyval;
  s_remove : option exn
}.

Record Engine : Type := mkEngine {
  containers : list Container;
  services : list Service
}.

Definition has_label (k v : string) (labels : list (string * string)) : bool :=
  existsb (fun kv => String.eqb (fst kv) k && String.eqb (snd kv) v) labels.

(** [client.containers.list(filters={"label": f"kernel_id={kernel_id}"})] *)
Definition containers_list (kernel_id : string) (e : Engine) : list Container :=
  List.filter (fun c => has_label "kernel_id" kernel_id (c_labels c))
              (containers e).

(** [client.services.list(filters={"label": f"kernel_id={kernel_id}"})] *)
Definition services_list (kernel_id : string) (e : Engine) : list Service :=
  List.filter (fun s => has_label "kernel_id" kernel_id (s_labels s))
              (services e).

Definition desired_state_is (state : string) (task : pyval) : bool :=
  match task with
  | PDict d => match dict_lookup "DesiredState" d with
               | Some (PStr s) => String.eqb s state
               | _ => false
               end
  | _ => false
  end.

(** [service.tasks(filters={"desired-state": state})]: the engine keeps the
    tasks whose desired state is the one asked for. *)
Definition service_tasks (state : string) (s : Service) : list pyval :=
  List.filter (desired_state_is state) (s_tasks s).

Definition drop_container (id : string) (e : Engine) : Engine :=
  mkEngine (List.filter (fun c => negb (String.eqb (c_id c) id)) (containers e))
           (services e).

Definition drop_service (id : string) (e : Engine) : Engine :=
  mkEngine (containers e)
           (List.filter (fun s => negb (String.eqb (s_id s) id)) (services e)).

(** ** The proxy object and the state the methods run in *)

Inductive proxy_class : Type :=
| ClsDockerProcessProxy
| ClsDockerSwarmProcessProxy.

(** [self.__class__.__name__] *)
Definition class_name (c : proxy_class) : string :=
  match c with
  | ClsDockerProcessProxy => "DockerProcessProxy"
  | ClsDockerSwarmProcessProxy => "DockerSwarmProcessProxy"
  end.

Inductive level : Type := DEBUG | WARNING.

(** The attributes of [self] that the two classes read or write, and the
    records handed to [self.log], oldest first. *)
Record Proxy : Type := mkProxy {
  cls : proxy_class;
  kernel_id : string;
  container_name : option string;
  assigned_ip : pyval;
  assigned_host : option string;
  log : list (level * fstring)
}.

(** The module-level [client] and the receiver of the call. *)
Record World : Type := mkWorld {
  client : Engine;
  self : Proxy
}.

(** Modelled from the spec: the constructor of the base class
    [ContainerProcessProxy] is not part of this file; section 3 of the
    specification gives a new proxy with its name, address and host absent. *)
Definition new_proxy (c : proxy_class) (kid : string) : Proxy :=
  mkProxy c kid None PNone None [].

(** Computations that read and write the world and may raise. *)
Definition M (A : Type) : Type := World -> result A * World.

Definition ret {A} (a : A) : M A := fun w => (Ok a, w).

Definition raise {A} (e : exn) : M A := fun w => (Raise e, w).

Definition bind {A B} (m : M A) (k : A -> M B) : M B :=
  fun w => match m w with
           | (Ok a, w') => k a w'
           | (Raise e, w') => (Raise e, w')
           end.

Notation "x <- m ;; k" := (bind m (fun x => k))
  (at level 100, m at next level, right associativity).
Notation "m ;;; k" := (bind m (fun _ => k))
  (at level 100, right associativity).

(** A pure Python operation that may raise. *)
Definition lift {A} (r : result A) : M A := fun w => (r, w).

(** [try: m  except Exception as err: handler err] *)
Definition try_except {A} (m : M A) (handler : exn -> M A) : M A :=
  fun w => match m w with
           | (Ok a, w') => (Ok a, w')
           | (Raise e, w') => handler e w'
           end.

Definition get_self {A} (f : Proxy -> A) : M A := fun w => (Ok (f (self w)), w).

Definition get_client {A} (f : Engine -> A) : M A :=
  fun w => (Ok (f (client w)), w).

Definition set_container_name (v : option string) : M unit :=
  fun w => let p := self w in
    (Ok tt, mkWorld (client w)
       (mkProxy (cls p) (kernel_id p) v (assigned_ip p) (assigned_host p) (log p))).

Definition set_assigned_ip (v : pyval) : M unit :=
  fun w => let p := self w in
    (Ok tt, mkWorld (client w)
       (mkProxy (cls p) (kernel_id p) (container_name p) v (assigned_host p) (log p))).

Definition set_assigned_host (v : option string) : M unit :=
  fun w => let p := self w in
    (Ok tt, mkWorld (client w)
       (mkProxy (cls p) (kernel_id p) (container_name p) (assigned_ip p) v (log p))).

(** [self.log.debug(msg)], [self.log.warning(msg)] *)
Definition log_at (l : level) (msg : fstring) : M unit :=
  fun w => let p := self w in
    (Ok tt, mkWorld (client w)
       (mkProxy (cls p) (kernel_id p) (container_name p) (assigned_ip p)
                (assigned_host p) (log p ++ [(l, msg)]))).

(** [container.remove(force=True)]: the container leaves the engine when the
    removal goes through, and also when the engine answers that it is no
    longer there. *)
Definition container_remove (c : Container) : M unit :=
  fun w => match c_remove c with
           | None => (Ok tt, mkWorld (drop_container (c_id c) (client w)) (self w))
           | Some e =>
               (Raise e,
                if is_NotFound e
                then mkWorld (drop_container (c_id c) (client w)) (self w)
                else w)
           end.

(** [service.remove()] *)
Definition service_remove (s : Service) : M unit :=
  fun w => match s_remove s with
           | None => (Ok tt, mkWorld (drop_service (s_id s) (client w)) (self w))
           | Some e =>
               (Raise e,
                if is_NotFound e
                then mkWorld (drop_service (s_id s) (client w)) (self w)
                else w)
           end.

(** ** class DockerSwarmProcessProxy *)

(** A [Service] or [Container] object of the client library is true in an
    [if]; a task is a dictionary and is tested with [truthy].  The two list
    calls are taken to answer: a failure of the engine to list is outside
    this model. *)

Module DockerSwarmProcessProxy.

(** The two assignments to [kwargs["env"]]. *)
Definition launch_env (docker_network : string) (env : gmap string string)
  : gmap string string :=
  <["EG_DOCKER_MODE" := "swarm"]> (<["EG_DOCKER_NETWORK" := docker_network]> env).

(** [launch_process]; [super_launch_process] stands for the method of the
    base class, which receives the updated environment. *)
Definition launch_process {R : Type}
    (super_launch_process : string -> gmap string string -> R)
    (docker_network kernel_cmd : string) (env : gmap string string) : R :=
  super_launch_process kernel_cmd (launch_env docker_network env).

Definition get_initial_states : gset string :=
  {[ "preparing"; "starting"; "running" ]}.

Definition get_error_states : gset string :=
  {[ "failed"; "rejected"; "complete"; "shutdown"; "orphaned"; "remove" ]}.

Definition _get_service : M (option Service) :=
  kid <- get_self kernel_id ;;
  services <- get_client (services_list kid) ;;
  let num_services := length services in
  if (num_services =? 1)%nat then
    match services with
    | service :: _ =>
        set_container_name (Some (s_name service)) ;;;
        ret (Some service)
    | [] => raise IndexError
    end
  else if (1 <? num_services)%nat then
    c <- get_self cls ;;
    raise (RuntimeError
             [Fmt (PStr (class_name c));
              Lit ": Found more than one service (";
              Fmt (PInt (Z.of_nat num_services));
              Lit ") for kernel_id '"; Fmt (PStr kid); Lit "'!"])
  else ret None.

Definition _get_task : M (option pyval) :=
  found <- _get_service ;;
  match found with
  | Some service =>
      let tasks := service_tasks "running" service in
      let num_tasks := length tasks in
      if (num_tasks =? 1)%nat then
        match tasks with
        | task :: _ => ret (Some task)
        | [] => raise IndexError
        end
      else if (1 <? num_tasks)%nat then
        c <- get_self cls ;;
        kid <- get_self kernel_id ;;
        raise (RuntimeError
                 [Fmt (PStr (class_name c));
                  Lit ": Found more than one task (";
                  Fmt (PInt (Z.of_nat num_tasks));
                  Lit ") for service '"; Fmt (PStr (s_name service));
                  Lit "', kernel_id '"; Fmt (PStr kid); Lit "'!"])
      else ret None
  | None => ret None
  end.

(** The body of [if not self.assigned_host and task_state == "running":]. *)
Definition capture_ip (task : pyval) : M unit :=
  networks_attachments <- lift (getitem task "NetworksAttachments") ;;
  n <- lift (py_len networks_attachments) ;;
  if (0 <? n)%nat then
    first <- lift (getitem0 networks_attachments) ;;
    addresses <- lift (getitem first "Addresses") ;;
    address <- lift (getitem0 addresses) ;;
    ip <- lift (str_split_slash_0 address) ;;
    set_assigned_ip (PStr ip) ;;;
    name <- get_self container_name ;;
    set_assigned_host name
  else ret tt.

Definition get_container_status (iteration : option Z) : M string :=
  found <- _get_task ;;
  st <- match found with
        | Some task =>
            if truthy task then
              task_id <- lift (getitem task "ID") ;;
              task_status <- lift (getitem task "Status") ;;
              if truthy task_status then
                state <- lift (getitem task_status "State") ;;
                task_state <- lift (str_lower state) ;;
                host <- get_self assigned_host ;;
                (if negb (truthy_str host) && String.eqb task_state "running"
                 then capture_ip task else ret tt) ;;;
                ret (task_state, task_id)
              else ret (EmptyString, task_id)
            else ret (EmptyString, PNone)
        | None => ret (EmptyString, PNone)
        end ;;
  let '(task_state, task_id) := st in
  (if truthy_int iteration then
     p <- get_self id ;;
     log_at DEBUG
       [Fmt (of_int iteration);
        Lit ": Waiting to connect to docker container. Name: '";
        Fmt (of_str (container_name p)); Lit "', Status: '";
        Fmt (PStr task_state); Lit "', IPAddress: '";
        Fmt (assigned_ip p); Lit "', KernelID: '";
        Fmt (PStr (kernel_id p)); Lit "', TaskID: '";
        Fmt task_id; Lit "'"]
   else ret tt) ;;;
  ret task_state.

(** [None] is the value returned on success ("maintain jupyter contract"),
    [Some false] is [False]. *)
Definition terminate_container_resources : M (option bool) :=
  found <- _get_service ;;
  result <- match found with
            | Some service =>
                try_except
                  (service_remove service ;;; ret true)
                  (fun err =>
                     c <- get_self cls ;;
                     log_at DEBUG
                       [Fmt (PStr (class_name c));
                        Lit " Termination of service: ";
                        Fmt (PStr (s_name service));
                        Lit " raised exception: "; FmtExn err] ;;;
                     if negb (is_NotFound err) then
                       log_at WARNING
                         [Lit "Error occurred removing service: "; FmtExn err] ;;;
                       ret false
                     else ret true)
            | None => ret true
            end ;;
  p <- get_self id ;;
  if result : bool then
    log_at DEBUG
      [Fmt (PStr (class_name (cls p)));
       Lit ".terminate_container_resources, service ";
       Fmt (of_str (container_name p)); Lit ", kernel ID: ";
       Fmt (PStr (kernel_id p)); Lit " has been terminated."] ;;;
    set_container_name None ;;;
    ret None
  else
    log_at WARNING
      [Fmt (PStr (class_name (cls p)));
       Lit ".terminate_container_resources, container ";
       Fmt (of_str (container_name p)); Lit ", kernel ID: ";
       Fmt (PStr (kernel_id p)); Lit " has not been terminated."] ;;;
    ret (Some false).

End DockerSwarmProcessProxy.

(** ** class DockerProcessProxy *)

Module DockerProcessProxy.

(** The two assignments to [kwargs["env"]]. *)
Definition launch_env (docker_network : string) (env : gmap string string)
  : gmap string string :=
  <["EG_DOCKER_MODE" := "docker"]> (<["EG_DOCKER_NETWORK" := docker_network]> env).

Definition launch_process {R : Type}
    (super_launch_process : string -> gmap string string -> R)
    (docker_network kernel_cmd : string) (env : gmap string string) : R :=
  super_launch_process kernel_cmd (launch_env docker_network env).

Definition get_initial_states : gset string :=
  {[ "created"; "running" ]}.

Definition get_error_states : gset string :=
  {[ "restarting"; "removing"; "paused"; "exited"; "dead" ]}.

Definition _get_container : M (option Container) :=
  kid <- get_self kernel_id ;;
  containers <- get_client (containers_list kid) ;;
  let num_containers := length containers in
  if (num_containers =? 1)%nat then
    match containers with
    | container :: _ => ret (Some container)
    | [] => raise IndexError
    end
  else if (1 <? num_containers)%nat then
    c <- get_self cls ;;
    raise (RuntimeError
             [Fmt (PStr (class_name c));
              Lit ": Found more than one container (";
              Fmt (PInt (Z.of_nat num_containers));
              Lit ") for kernel_id '"; Fmt (PStr kid); Lit "'!"])
  else ret None.

(** The body of [if container_status == "running" and not self.assigned_host:]. *)
Definition capture_ip (docker_network : string) (container : Container) : M unit :=
  settings <- lift (dict_get (c_attrs container) "NetworkSettings") ;;
  fallback <- lift (dict_get settings "IPAddress") ;;
  set_assigned_ip fallback ;;;
  settings' <- lift (dict_get (c_attrs container) "NetworkSettings") ;;
  networks <- lift (dict_get settings' "Networks") ;;
  n <- lift (py_len networks) ;;
  (if (0 <? n)%nat then
     network <- lift (dict_get networks docker_network) ;;
     ip <- lift (dict_get network "IPAddress") ;;
     set_assigned_ip ip ;;;
     log_at DEBUG
       [Lit "Using assigned_ip "; Fmt ip; Lit " from docker network '";
        Fmt (PStr docker_network); Lit "'."]
   else
     ip <- get_self assigned_ip ;;
     log_at WARNING
       [Lit "Docker network '"; Fmt (PStr docker_network);
        Lit "' could not be located in container attributes - using assigned_ip '";
        Fmt ip; Lit "'."]) ;;;
  name <- get_self container_name ;;
  set_assigned_host name.

Definition get_container_status (docker_network : string) (iteration : option Z)
  : M string :=
  found <- _get_container ;;
  container_status <-
    match found with
    | Some container =>
        set_container_name (c_name container) ;;;
        if truthy_str (c_status container) then
          container_status <- lift (str_lower (of_str (c_status container))) ;;
          host <- get_self assigned_host ;;
          (if String.eqb container_status "running" && negb (truthy_str host)
           then capture_ip docker_network container else ret tt) ;;;
          ret container_status
        else ret EmptyString
    | None => ret EmptyString
    end ;;
  (if truthy_int iteration then
     p <- get_self id ;;
     log_at DEBUG
       [Fmt (of_int iteration);
        Lit ": Waiting to connect to docker container. Name: '";
        Fmt (of_str (container_name p)); Lit "', Status: '";
        Fmt (PStr container_status); Lit "', IPAddress: '";
        Fmt (assigned_ip p); Lit "', KernelID: '";
        Fmt (PStr (kernel_id p)); Lit "'"]
   else ret tt) ;;;
  ret container_status.

Definition terminate_container_resources : M (option bool) :=
  found <- _get_container ;;
  result <- match found with
            | Some container =>
                try_except
                  (container_remove container ;;; ret true)
                  (fun err =>
                     log_at DEBUG
                       [Lit "Container termination for container: ";
                        Fmt (of_str (c_name container));
                        Lit " raised exception: "; FmtExn err] ;;;
                     if negb (is_NotFound err) then
                       log_at WARNING
                         [Lit "Error occurred removing container: "; FmtExn err] ;;;
                       ret false
                     else ret true)
            | None => ret true
            end ;;
  p <- get_self id ;;
  if result : bool then
    log_at DEBUG
      [Fmt (PStr (class_name (cls p)));
       Lit ".terminate_container_resources, container ";
       Fmt (of_str (container_name p)); Lit ", kernel ID: ";
       Fmt (PStr (kernel_id p)); Lit " has been terminated."] ;;;
    set_container_name None ;;;
    ret None
  else
    log_at WARNING
      [Fmt (PStr (class_name (cls p)));
       Lit ".terminate_container_resources, container ";
       Fmt (of_str (container_name p)); Lit ", kernel ID: ";
       Fmt (PStr (kernel_id p)); Lit " has not been terminated."] ;;;
    ret (Some false).

End DockerProcessProxy.

(** ** Method dispatch on the class of [self] *)

Definition get_container_status (docker_network : string) (iteration : option Z)
  : M string :=
  fun w => match cls (self w) with
           | ClsDockerProcessProxy =>
               DockerProcessProxy.get_container_status docker_network iteration w
           | ClsDockerSwarmProcessProxy =>
               DockerSwarmProcessProxy.get_container_status iteration w
           end.

Definition terminate_container_resources : M (option bool) :=
  fun w => match cls (self w) with
           | ClsDockerProcessProxy =>
               DockerProcessProxy.terminate_container_resources w
           | ClsDockerSwarmProcessProxy =>
               DockerSwarmProcessProxy.terminate_container_resources w
           end.

Definition launch_env (c : proxy_class) (docker_network : string)
    (env : gmap string string) : gmap string string :=
  match c with
  | ClsDockerProcessProxy => DockerProcessProxy.launch_env docker_network env
  | ClsDockerSwarmProcessProxy => DockerSwarmProcessProxy.launch_env docker_network env
  end.

(** The value of [EG_DOCKER_MODE] each class writes. *)
Definition mode_tag (c : proxy_class) : string :=
  match c with
  | ClsDockerProcessProxy => "docker"
  | ClsDockerSwarmProcessProxy => "swarm"
  end.

(** ** Examples *)

Definition one_net (ip : string) : pyval := PDict [("IPAddress", PStr ip)].

Definition settings (default_ip : string) (networks : list (string * pyval)) : pyval :=
  PDict [("NetworkSettings",
          PDict [("IPAddress", PStr default_ip); ("Networks", PDict networks)])].

Definition kernel_container (id name status : string) (attrs : pyval)
    (remove : option exn) : Container :=
  mkContainer id [("kernel_id", "abc")] (Some name) (Some status) attrs remove.

Definition swarm_task (id desired state : string) (attachments : option pyval) : pyval :=
  PDict ([("ID", PStr id); ("DesiredState", PStr desired);
          ("Status", PDict [("State", PStr state)])]
         ++ match attachments with
            | Some a => [("NetworksAttachments", a)]
            | None => []
            end).

Definition attachment (addresses : list string) : pyval :=
  PDict [("Addresses", PList (map PStr addresses))].

Definition kernel_service (id name : string) (tasks : list pyval)
    (remove : option exn) : Service :=
  mkService id [("kernel_id", "abc")] name tasks remove.

Definition docker_world (cs : list Container) : World :=
  mkWorld (mkEngine cs []) (new_proxy ClsDockerProcessProxy "abc").

Definition swarm_world (ss : list Service) : World :=
  mkWorld (mkEngine [] ss) (new_proxy ClsDockerSwarmProcessProxy "abc").

(** A container that reports the empty string as its name, polled while the
    engine gives it one address and then another. *)
Definition unnamed (ip : string) : Container :=
  kernel_container "c1" "" "running" (settings ip [("bridge", one_net ip)]) None.

Definition named (ip : string) : Container :=
  kernel_container "c1" "k1" "running" (settings ip [("bridge", one_net ip)]) None.

(** A runtime object: a container for the one class, a service for the
    other. *)
Inductive runtime_object : Type :=
| a_container (c : Container)
| a_service (s : Service).

(** The runtime objects the engine lists for the identity of [self]. *)
Definition listed (w : World) : list runtime_object :=
  match cls (self w) with
  | ClsDockerProcessProxy =>
      map a_container (containers_list (kernel_id (self w)) (client w))
  | ClsDockerSwarmProcessProxy =>
      map a_service (services_list (kernel_id (self w)) (client w))
  end.

(** How the engine answers the removal of a runtime object. *)
Definition removal (o : runtime_object) : option exn :=
  match o with
  | a_container c => c_remove c
  | a_service s => s_remove s
  end.

(** Nothing for [get_container_status] to report on: no container; no
    service, or a service none of whose tasks has desired state running. *)
Definition nothing_to_report (w : World) : Prop :=
  listed w = [] \/
  exists s, listed w = [a_service s] /\ service_tasks "running" s = [].

(** A service that has two tasks whose desired state is running. *)
Definition doubled_service : Service :=
  kernel_service "s1" "svc"
    [swarm_task "t1" "running" "Running" None;
     swarm_task "t2" "running" "Starting" None] None.

(** A service whose removal the engine refuses. *)
Definition stuck_service : Service :=
  kernel_service "s1" "svc" [] (Some (APIError "boom")).

(** A running container attached to a network other than the configured
    one. *)
Definition elsewhere : Container :=
  kernel_container "c1" "k1" "running"
    (settings "172.17.0.2" [("other", one_net "10.1.0.5")]) None.

(** The same proxy in front of an engine that has moved on. *)
Definition with_client (e : Engine) (w : World) : World := mkWorld e (self w).

(** The engine reports exactly one runtime object for [self] and its status
    reads "running" once lowercased: the [status] of the container for the one
    class; for the other, the ["State"] under ["Status"] of the only task of
    the service whose desired state is running. *)
Definition running_reported (w : World) : Prop :=
  match cls (self w) with
  | ClsDockerProcessProxy =>
      exists c s,
        containers_list (kernel_id (self w)) (client w) = [c] /\
        c_status c = Some s /\ lower s = "running"
  | ClsDockerSwarmProcessProxy =>
      exists svc task status s,
        services_list (kernel_id (self w)) (client w) = [svc] /\
        service_tasks "running" svc = [task] /\
        getitem task "Status" = Ok status /\
        getitem status "State" = Ok (PStr s) /\ lower s = "running"
  end.

(** Neither address field of [self] differs between two worlds. *)
Definition same_address (w w' : World) : Prop :=
  assigned_ip (self w') = assigned_ip (self w) /\
  assigned_host (self w') = assigned_host (self w).

(** [self.get_initial_states()] and [self.get_error_states()], dispatched on
    the class of [self]. *)
Definition get_initial_states (c : proxy_class) : gset string :=
  match c with
  | ClsDockerProcessProxy => DockerProcessProxy.get_initial_states
  | ClsDockerSwarmProcessProxy => DockerSwarmProcessProxy.get_initial_states
  end.

Definition get_error_states (c : proxy_class) : gset string :=
  match c with
  | ClsDockerProcessProxy => DockerProcessProxy.get_error_states
  | ClsDockerSwarmProcessProxy => DockerSwarmProcessProxy.get_error_states
  end.

(** Two worlds with the same engine and the same proxy, the log apart. *)
Definition same_but_log (w w' : World) : Prop :=
  client w' = client w /\
  cls (self w') = cls (self w) /\
  kernel_id (self w') = kernel_id (self w) /\
  container_name (self w') = container_name (self w) /\
  assigned_ip (self w') = assigned_ip (self w) /\
  assigned_host (self w') = assigned_host (self w).

(** The engine without a runtime object. *)
Definition drop (o : runtime_object) (e : Engine) : Engine :=
  match o with
  | a_container c => drop_container (c_id c) e
  | a_service s => drop_service (s_id s) e
  end.

(** A service with a task that was shut down and the task that replaced
    it. *)
Definition restarted_service : Service :=
  kernel_service "s1" "svc"
    [swarm_task "t0" "shutdown" "Failed" None;
     swarm_task "t1" "running" "Starting" None] None.

(** A running task that has no network attachment yet, and one whose
    dictionary has no such key. *)
Definition unattached_service : Service :=
  kernel_service "s1" "svc"
    [swarm_task "t1" "running" "Running" (Some (PList []))] None.

Definition bare_service : Service :=
  kernel_service "s1" "svc" [swarm_task "t1" "running" "Running" None] None.

(** * Properties *)

(** ** Running the monad *)

Ltac run :=
  cbv [bind ret raise lift get_self get_client set_container_name
       set_assigned_ip set_assigned_host log_at try_except
       container_remove service_remove] in *;
  cbn [fst snd self client cls kernel_id container_name assigned_ip
       assigned_host log] in *.

(** Case analysis on a scrutinee that has no [match] inside it. *)
Ltac split_inner :=
  match goal with
  | |- context [match ?x with _ => _ end] =>
      lazymatch x with
      | context [match _ with _ => _ end] => fail
      | _ => destruct x eqn:?
      end
  end.

Ltac use_tests :=
  repeat match goal with
    | H : _ && _ = true |- _ => apply andb_prop in H; destruct H
    | H : negb _ = true |- _ => apply negb_true_iff in H
    | H : String.eqb _ _ = true |- _ => apply String.eqb_eq in H
    | H : Nat.eqb _ _ = true |- _ => apply Nat.eqb_eq in H
    | H : length (_ :: ?l) = 1%nat |- _ =>
        destruct l; [clear H | discriminate H]
    end.

Section Lookups.

Variable w : World.

Local Abbreviation kid := (kernel_id (self w)).

Lemma get_container_none :
  containers_list kid (client w) = [] ->
  DockerProcessProxy._get_container w = (Ok None, w).
Proof.
  intros H. unfold DockerProcessProxy._get_container. run.
  rewrite H. reflexivity.
Qed.

Lemma get_container_one c :
  containers_list kid (client w) = [c] ->
  DockerProcessProxy._get_container w = (Ok (Some c), w).
Proof.
  intros H. unfold DockerProcessProxy._get_container. run.
  rewrite H. reflexivity.
Qed.

Lemma get_container_many :
  (2 <= length (containers_list kid (client w)))%nat ->
  DockerProcessProxy._get_container w =
    (Raise (RuntimeError
              [Fmt (PStr (class_name (cls (self w))));
               Lit ": Found more than one container (";
               Fmt (PInt (Z.of_nat (length (containers_list kid (client w)))));
               Lit ") for kernel_id '"; Fmt (PStr kid); Lit "'!"]), w).
Proof.
  intros H. unfold DockerProcessProxy._get_container. run.
  destruct (containers_list _ _) as [|c [|c' l]]; simpl in *; try lia.
  reflexivity.
Qed.

Lemma get_container_frame :
  snd (DockerProcessProxy._get_container w) = w.
Proof.
  unfold DockerProcessProxy._get_container. run.
  destruct (containers_list _ _) as [|c [|c' l]]; reflexivity.
Qed.

Lemma get_service_none :
  services_list kid (client w) = [] ->
  DockerSwarmProcessProxy._get_service w = (Ok None, w).
Proof.
  intros H. unfold DockerSwarmProcessProxy._get_service. run.
  rewrite H. reflexivity.
Qed.

Lemma get_service_one s :
  services_list kid (client w) = [s] ->
  DockerSwarmProcessProxy._get_service w =
    (Ok (Some s),
     mkWorld (client w)
       (mkProxy (cls (self w)) kid (Some (s_name s)) (assigned_ip (self w))
                (assigned_host (self w)) (log (self w)))).
Proof.
  intros H. unfold DockerSwarmProcessProxy._get_service. run.
  rewrite H. reflexivity.
Qed.

Lemma get_service_many :
  (2 <= length (services_list kid (client w)))%nat ->
  DockerSwarmProcessProxy._get_service w =
    (Raise (RuntimeError
              [Fmt (PStr (class_name (cls (self w))));
               Lit ": Found more than one service (";
               Fmt (PInt (Z.of_nat (length (services_list kid (client w)))));
               Lit ") for kernel_id '"; Fmt (PStr kid); Lit "'!"]), w).
Proof.
  intros H. unfold DockerSwarmProcessProxy._get_service. run.
  destruct (services_list _ _) as [|c [|c' l]]; simpl in *; try lia.
  reflexivity.
Qed.

End Lookups.

(** ** Python values *)

Lemma str_lower_ok v a :
  str_lower v = Ok a -> exists s, v = PStr s /\ a = lower s.
Proof. destruct v; simpl; intros H; inversion H; eauto. Qed.

Lemma str_lower_of_str o a :
  str_lower (of_str o) = Ok a -> exists s, o = Some s /\ a = lower s.
Proof. destruct o as [s|]; simpl; intros H; inversion H; eauto. Qed.

(** ** The address fields are written once *)

Ltac unchanged_or_split :=
  repeat (split_inner; run;
          try (split; [intros; split; congruence | intros []; split; congruence])).

Lemma docker_status_address net it w :
  cls (self w) = ClsDockerProcessProxy ->
  let r := DockerProcessProxy.get_container_status net it w in
  (truthy_str (assigned_host (self w)) = true -> same_address w (snd r)) /\
  (~ same_address w (snd r) ->
     truthy_str (assigned_host (self w)) = false /\ running_reported w).
Proof.
  unfold same_address, running_reported.
  destruct w as [e [c kid name ip host lg]]. simpl. intros ->.
  unfold DockerProcessProxy.get_container_status,
    DockerProcessProxy._get_container, DockerProcessProxy.capture_ip. run.
  unchanged_or_split.
  all: use_tests; subst.
  all: match goal with H : str_lower _ = _ |- _ =>
         apply str_lower_of_str in H; destruct H as (s & Hs & ->) end.
  all: split; [congruence | intros _; split; [assumption | eauto] ].
Qed.

Lemma swarm_status_address it w :
  cls (self w) = ClsDockerSwarmProcessProxy ->
  let r := DockerSwarmProcessProxy.get_container_status it w in
  (truthy_str (assigned_host (self w)) = true -> same_address w (snd r)) /\
  (~ same_address w (snd r) ->
     truthy_str (assigned_host (self w)) = false /\ running_reported w).
Proof.
  unfold same_address, running_reported.
  destruct w as [e [c kid name ip host lg]]. simpl. intros ->.
  unfold DockerSwarmProcessProxy.get_container_status,
    DockerSwarmProcessProxy._get_task, DockerSwarmProcessProxy._get_service,
    DockerSwarmProcessProxy.capture_ip. run.
  unchanged_or_split.
  all: use_tests; subst.
  all: match goal with H : str_lower _ = _ |- _ =>
         apply str_lower_ok in H; destruct H as (s' & -> & Hs) end.
  all: split; [congruence | intros _; split; [assumption | ] ].
  all: do 4 eexists; repeat split; eauto.
Qed.

(** C1, as amended.  Once [assigned_host] holds a non-empty string, a call of
    [get_container_status] changes neither [assigned_ip] nor [assigned_host],
    whatever the engine reports and whether the call returns or raises.  A
    call that does change one of them found [assigned_host] empty or [None]
    and the status of the only runtime object equal to "running" once
    lowercased. *)
Theorem C1_write_once_nonempty_host net it w :
  let r := get_container_status net it w in
  (truthy_str (assigned_host (self w)) = true -> same_address w (snd r)) /\
  (~ same_address w (snd r) ->
     truthy_str (assigned_host (self w)) = false /\ running_reported w).
Proof.
  unfold get_container_status.
  destruct (cls (self w)) eqn:E.
  - apply docker_status_address; assumption.
  - apply swarm_status_address; assumption.
Qed.

Lemma C1_write_once_nonempty_host_witness :
  let w := with_client (mkEngine [named "172.17.0.9"] [])
             (snd (get_container_status "bridge" None (docker_world [named "172.17.0.2"]))) in
  truthy_str (assigned_host (self w)) = true /\
  same_address w (snd (get_container_status "bridge" None w)).
Proof.
  intros w. split; [reflexivity|].
  apply (proj1 (C1_write_once_nonempty_host "bridge" None w)). reflexivity.
Defined.

(** C1 as stated fails: a container whose name is the empty string leaves
    [assigned_host] present but empty after the first running poll, and the
    next poll overwrites [assigned_ip] with the new address. *)
Lemma C1_counterexample :
  let w := with_client (mkEngine [unnamed "172.17.0.9"] [])
             (snd (get_container_status "bridge" None (docker_world [unnamed "172.17.0.2"]))) in
  (assigned_ip (self w) = PStr "172.17.0.2" /\ assigned_host (self w) = Some "") /\
  assigned_ip (self (snd (get_container_status "bridge" None w))) = PStr "172.17.0.9" /\
  ~ same_address w (snd (get_container_status "bridge" None w)).
Proof.
  cbv zeta. split; [split; reflexivity|]. split; [reflexivity|].
  intros [H _]. vm_compute in H. discriminate H.
Qed.

(** ** What [listed] says about each class *)

Lemma listed_docker w :
  cls (self w) = ClsDockerProcessProxy ->
  listed w = map a_container (containers_list (kernel_id (self w)) (client w)).
Proof. unfold listed. intros ->. reflexivity. Qed.

Lemma listed_swarm w :
  cls (self w) = ClsDockerSwarmProcessProxy ->
  listed w = map a_service (services_list (kernel_id (self w)) (client w)).
Proof. unfold listed. intros ->. reflexivity. Qed.

Lemma map_eq_one {A B} (f : A -> B) (l : list A) (b : B) :
  map f l = [b] -> exists a, l = [a] /\ f a = b.
Proof.
  destruct l as [|a [|a' l]]; simpl; intros H; inversion H; eauto.
Qed.

Lemma map_eq_none {A B} (f : A -> B) (l : list A) :
  map f l = [] -> l = [].
Proof. destruct l; simpl; intros H; [reflexivity | discriminate H]. Qed.

(** The guard reads [assigned_host] only.  A poll that raises while it
    captures the address has already stored the default address; the next
    poll finds [assigned_host] unset and stores another address. *)
Example address_rewritten_after_failed_capture :
  let w := with_client (mkEngine [named "172.17.0.9"] [])
             (snd (get_container_status "bridge" None (docker_world [elsewhere]))) in
  assigned_ip (self w) = PStr "172.17.0.2" /\
  assigned_host (self w) = None /\
  assigned_ip (self (snd (get_container_status "bridge" None w))) = PStr "172.17.0.9".
Proof. repeat split. Qed.

(** ** No runtime object *)

Lemma docker_status_none net it w :
  containers_list (kernel_id (self w)) (client w) = [] ->
  fst (DockerProcessProxy.get_container_status net it w) = Ok EmptyString /\
  same_address w (snd (DockerProcessProxy.get_container_status net it w)).
Proof.
  intros H. unfold DockerProcessProxy.get_container_status.
  cbv beta delta [bind]. rewrite get_container_none by assumption. unfold same_address. run.
  destruct (truthy_int it); simpl; auto.
Qed.

Lemma swarm_status_no_service it w :
  services_list (kernel_id (self w)) (client w) = [] ->
  fst (DockerSwarmProcessProxy.get_container_status it w) = Ok EmptyString /\
  same_address w (snd (DockerSwarmProcessProxy.get_container_status it w)).
Proof.
  intros H.
  unfold DockerSwarmProcessProxy.get_container_status,
    DockerSwarmProcessProxy._get_task.
  cbv beta delta [bind]. rewrite get_service_none by assumption. unfold same_address. run.
  destruct (truthy_int it); simpl; auto.
Qed.

Lemma swarm_status_no_task it w s :
  services_list (kernel_id (self w)) (client w) = [s] ->
  service_tasks "running" s = [] ->
  fst (DockerSwarmProcessProxy.get_container_status it w) = Ok EmptyString /\
  same_address w (snd (DockerSwarmProcessProxy.get_container_status it w)) /\
  container_name (self (snd (DockerSwarmProcessProxy.get_container_status it w)))
    = Some (s_name s).
Proof.
  intros H Ht.
  unfold DockerSwarmProcessProxy.get_container_status,
    DockerSwarmProcessProxy._get_task.
  cbv beta delta [bind]. rewrite (get_service_one _ s) by assumption.
  rewrite Ht.
  unfold same_address. run.
  destruct (truthy_int it); simpl; auto.
Qed.

(** C3.  When the engine lists no runtime object for the identity of [self]
    (no container; no service, or one service without a task whose desired
    state is running), [get_container_status] returns the empty string, does
    not raise, and leaves [assigned_ip] and [assigned_host] as they were, so
    absent when they were absent. *)
Theorem C3_nothing_listed_empty_phase net it w :
  nothing_to_report w ->
  fst (get_container_status net it w) = Ok EmptyString /\
  same_address w (snd (get_container_status net it w)).
Proof.
  unfold nothing_to_report, get_container_status.
  destruct (cls (self w)) eqn:E; intros [H | (s & H & Ht)].
  - rewrite listed_docker in H by assumption. apply map_eq_none in H.
    apply docker_status_none; assumption.
  - rewrite listed_docker in H by assumption.
    apply map_eq_one in H. destruct H as (c & _ & Hc). discriminate Hc.
  - rewrite listed_swarm in H by assumption. apply map_eq_none in H.
    apply swarm_status_no_service; assumption.
  - rewrite listed_swarm in H by assumption.
    apply map_eq_one in H. destruct H as (s' & H & Hs).
    injection Hs as ->.
    destruct (swarm_status_no_task it w s H Ht) as (? & ? & _). auto.
Qed.

Lemma C3_nothing_listed_empty_phase_witness :
  let w1 := docker_world [] in
  let w2 := swarm_world [kernel_service "s1" "svc"
                           [swarm_task "t0" "shutdown" "Failed" None] None] in
  (fst (get_container_status "bridge" (Some 1) w1) = Ok EmptyString /\
   same_address w1 (snd (get_container_status "bridge" (Some 1) w1))) /\
  (fst (get_container_status "bridge" (Some 1) w2) = Ok EmptyString /\
   same_address w2 (snd (get_container_status "bridge" (Some 1) w2))).
Proof.
  intros w1 w2. split.
  - apply (C3_nothing_listed_empty_phase "bridge" (Some 1) w1).
    left. reflexivity.
  - apply (C3_nothing_listed_empty_phase "bridge" (Some 1) w2).
    right. eexists. split; reflexivity.
Defined.

(** ** More than one runtime object *)

Lemma docker_status_many net it w :
  (2 <= length (containers_list (kernel_id (self w)) (client w)))%nat ->
  DockerProcessProxy.get_container_status net it w =
    (Raise (RuntimeError
              [Fmt (PStr (class_name (cls (self w))));
               Lit ": Found more than one container (";
               Fmt (PInt (Z.of_nat (length (containers_list (kernel_id (self w))
                                              (client w)))));
               Lit ") for kernel_id '"; Fmt (PStr (kernel_id (self w)));
               Lit "'!"]), w).
Proof.
  intros H. unfold DockerProcessProxy.get_container_status.
  cbv beta delta [bind]. rewrite get_container_many by assumption. reflexivity.
Qed.

Lemma docker_terminate_many w :
  (2 <= length (containers_list (kernel_id (self w)) (client w)))%nat ->
  DockerProcessProxy.terminate_container_resources w =
    (Raise (RuntimeError
              [Fmt (PStr (class_name (cls (self w))));
               Lit ": Found more than one container (";
               Fmt (PInt (Z.of_nat (length (containers_list (kernel_id (self w))
                                              (client w)))));
               Lit ") for kernel_id '"; Fmt (PStr (kernel_id (self w)));
               Lit "'!"]), w).
Proof.
  intros H. unfold DockerProcessProxy.terminate_container_resources.
  cbv beta delta [bind]. rewrite get_container_many by assumption. reflexivity.
Qed.

Lemma swarm_status_many it w :
  (2 <= length (services_list (kernel_id (self w)) (client w)))%nat ->
  DockerSwarmProcessProxy.get_container_status it w =
    (Raise (RuntimeError
              [Fmt (PStr (class_name (cls (self w))));
               Lit ": Found more than one service (";
               Fmt (PInt (Z.of_nat (length (services_list (kernel_id (self w))
                                              (client w)))));
               Lit ") for kernel_id '"; Fmt (PStr (kernel_id (self w)));
               Lit "'!"]), w).
Proof.
  intros H.
  unfold DockerSwarmProcessProxy.get_container_status,
    DockerSwarmProcessProxy._get_task.
  cbv beta delta [bind]. rewrite get_service_many by assumption. reflexivity.
Qed.

Lemma swarm_terminate_many w :
  (2 <= length (services_list (kernel_id (self w)) (client w)))%nat ->
  DockerSwarmProcessProxy.terminate_container_resources w =
    (Raise (RuntimeError
              [Fmt (PStr (class_name (cls (self w))));
               Lit ": Found more than one service (";
               Fmt (PInt (Z.of_nat (length (services_list (kernel_id (self w))
                                              (client w)))));
               Lit ") for kernel_id '"; Fmt (PStr (kernel_id (self w)));
               Lit "'!"]), w).
Proof.
  intros H. unfold DockerSwarmProcessProxy.terminate_container_resources.
  cbv beta delta [bind]. rewrite get_service_many by assumption. reflexivity.
Qed.

Lemma swarm_status_many_tasks it w s :
  services_list (kernel_id (self w)) (client w) = [s] ->
  (2 <= length (service_tasks "running" s))%nat ->
  fst (DockerSwarmProcessProxy.get_container_status it w) =
    Raise (RuntimeError
             [Fmt (PStr (class_name (cls (self w))));
              Lit ": Found more than one task (";
              Fmt (PInt (Z.of_nat (length (service_tasks "running" s))));
              Lit ") for service '"; Fmt (PStr (s_name s));
              Lit "', kernel_id '"; Fmt (PStr (kernel_id (self w)));
              Lit "'!"]).
Proof.
  intros H Ht.
  unfold DockerSwarmProcessProxy.get_container_status,
    DockerSwarmProcessProxy._get_task.
  cbv beta delta [bind]. rewrite (get_service_one _ s) by assumption.
  destruct (service_tasks "running" s) as [|t [|t' l]]; simpl in Ht; try lia.
  reflexivity.
Qed.

(** C4, as amended.  When the engine lists two or more runtime objects for
    the identity of [self], [get_container_status] and
    [terminate_container_resources] both raise a [RuntimeError] whose message
    holds the identity and the number listed, and the world is as it was:
    nothing is removed and nothing is caught.  When the only service has two or
    more tasks whose desired state is running, [get_container_status] raises a
    [RuntimeError] whose message holds the identity, the number of tasks and
    the name of the service.  [terminate_container_resources] never looks at
    tasks. *)
Theorem C4_ambiguity_raises net it w :
  ((2 <= length (listed w))%nat ->
   exists msg,
     get_container_status net it w = (Raise (RuntimeError msg), w) /\
     terminate_container_resources w = (Raise (RuntimeError msg), w) /\
     In (Fmt (PStr (kernel_id (self w)))) msg /\
     In (Fmt (PInt (Z.of_nat (length (listed w))))) msg) /\
  (forall s,
     listed w = [a_service s] ->
     (2 <= length (service_tasks "running" s))%nat ->
     exists msg,
       fst (get_container_status net it w) = Raise (RuntimeError msg) /\
       In (Fmt (PStr (kernel_id (self w)))) msg /\
       In (Fmt (PInt (Z.of_nat (length (service_tasks "running" s))))) msg /\
       In (Fmt (PStr (s_name s))) msg).
Proof.
  unfold get_container_status, terminate_container_resources.
  destruct (cls (self w)) eqn:E; split.
  - rewrite listed_docker by assumption. rewrite length_map. intros H.
    eexists. split; [apply docker_status_many; assumption|].
    split; [apply docker_terminate_many; assumption|].
    simpl; auto 10.
  - intros s H. rewrite listed_docker in H by assumption.
    apply map_eq_one in H. destruct H as (c & _ & Hc). discriminate Hc.
  - rewrite listed_swarm by assumption. rewrite length_map. intros H.
    eexists. split; [apply swarm_status_many; assumption|].
    split; [apply swarm_terminate_many; assumption|].
    simpl; auto 10.
  - intros s H Ht. rewrite listed_swarm in H by assumption.
    apply map_eq_one in H. destruct H as (s' & H & Hs).
    injection Hs as ->.
    eexists. split; [apply (swarm_status_many_tasks it w s H Ht)|].
    simpl; auto 10.
Qed.

Lemma C4_ambiguity_raises_witness :
  let w1 := docker_world [named "172.17.0.2"; named "172.17.0.3"] in
  let w2 := swarm_world [doubled_service] in
  (exists msg,
     get_container_status "bridge" None w1 = (Raise (RuntimeError msg), w1) /\
     terminate_container_resources w1 = (Raise (RuntimeError msg), w1) /\
     In (Fmt (PStr "abc")) msg /\ In (Fmt (PInt 2)) msg) /\
  (exists msg,
     fst (get_container_status "bridge" None w2) = Raise (RuntimeError msg) /\
     In (Fmt (PStr "abc")) msg /\ In (Fmt (PInt 2)) msg /\
     In (Fmt (PStr "svc")) msg).
Proof.
  intros w1 w2. split.
  - apply (proj1 (C4_ambiguity_raises "bridge" None w1)). simpl. lia.
  - apply (proj2 (C4_ambiguity_raises "bridge" None w2) doubled_service).
    + reflexivity.
    + simpl. lia.
Defined.

(** C4 as stated fails at the task stage for termination: with one service
    that has two tasks whose desired state is running,
    [terminate_container_resources] removes the service and returns the value
    of success. *)
Lemma C4_counterexample :
  listed (swarm_world [doubled_service]) = [a_service doubled_service] /\
  length (service_tasks "running" doubled_service) = 2%nat /\
  fst (terminate_container_resources (swarm_world [doubled_service])) = Ok None /\
  listed (snd (terminate_container_resources (swarm_world [doubled_service]))) = [].
Proof. repeat split. Qed.

(** ** Termination *)

Lemma filter_swap {A} (f g : A -> bool) (l : list A) :
  List.filter f (List.filter g l) = List.filter g (List.filter f l).
Proof.
  induction l as [|a l IH]; simpl; [reflexivity|].
  destruct (g a) eqn:Hg, (f a) eqn:Hf; simpl;
    rewrite ?Hg, ?Hf, IH; reflexivity.
Qed.

Lemma containers_list_drop kid e c :
  containers_list kid e = [c] ->
  containers_list kid (drop_container (c_id c) e) = [].
Proof.
  unfold containers_list, drop_container. simpl. intros H.
  rewrite filter_swap, H. simpl. rewrite String.eqb_refl. reflexivity.
Qed.

Lemma services_list_drop kid e s :
  services_list kid e = [s] ->
  services_list kid (drop_service (s_id s) e) = [].
Proof.
  unfold services_list, drop_service. simpl. intros H.
  rewrite filter_swap, H. simpl. rewrite String.eqb_refl. reflexivity.
Qed.

Lemma docker_terminate_none w :
  containers_list (kernel_id (self w)) (client w) = [] ->
  fst (DockerProcessProxy.terminate_container_resources w) = Ok None.
Proof.
  intros H. unfold DockerProcessProxy.terminate_container_resources.
  cbv beta delta [bind]. rewrite get_container_none by assumption.
  reflexivity.
Qed.

Lemma swarm_terminate_none w :
  services_list (kernel_id (self w)) (client w) = [] ->
  fst (DockerSwarmProcessProxy.terminate_container_resources w) = Ok None.
Proof.
  intros H. unfold DockerSwarmProcessProxy.terminate_container_resources.
  cbv beta delta [bind]. rewrite get_service_none by assumption.
  reflexivity.
Qed.

Lemma docker_terminate_removed w c :
  containers_list (kernel_id (self w)) (client w) = [c] ->
  c_remove c = None ->
  fst (DockerProcessProxy.terminate_container_resources w) = Ok None.
Proof.
  intros H Hr. unfold DockerProcessProxy.terminate_container_resources.
  cbv beta delta [bind]. rewrite (get_container_one _ c) by assumption.
  run. rewrite Hr. reflexivity.
Qed.

Lemma swarm_terminate_removed w s :
  services_list (kernel_id (self w)) (client w) = [s] ->
  s_remove s = None ->
  fst (DockerSwarmProcessProxy.terminate_container_resources w) = Ok None.
Proof.
  intros H Hr. unfold DockerSwarmProcessProxy.terminate_container_resources.
  cbv beta delta [bind]. rewrite (get_service_one _ s) by assumption.
  run. rewrite Hr. reflexivity.
Qed.

Lemma docker_terminate_success w :
  let w' := snd (DockerProcessProxy.terminate_container_resources w) in
  fst (DockerProcessProxy.terminate_container_resources w) = Ok None ->
  container_name (self w') = None /\
  cls (self w') = cls (self w) /\
  containers_list (kernel_id (self w')) (client w') = [].
Proof.
  destruct w as [e [c kid name ip host lg]].
  unfold DockerProcessProxy.terminate_container_resources,
    DockerProcessProxy._get_container. run.
  repeat (split_inner; run); try discriminate; intros _; use_tests;
    repeat split; try assumption.
  all: try (apply containers_list_drop; assumption).
  all: destruct (containers_list kid e) as [|? [|? ?]];
    [reflexivity | discriminate ..].
Qed.

Lemma swarm_terminate_success w :
  let w' := snd (DockerSwarmProcessProxy.terminate_container_resources w) in
  fst (DockerSwarmProcessProxy.terminate_container_resources w) = Ok None ->
  container_name (self w') = None /\
  cls (self w') = cls (self w) /\
  services_list (kernel_id (self w')) (client w') = [].
Proof.
  destruct w as [e [c kid name ip host lg]].
  unfold DockerSwarmProcessProxy.terminate_container_resources,
    DockerSwarmProcessProxy._get_service. run.
  repeat (split_inner; run); try discriminate; intros _; use_tests;
    repeat split; try assumption.
  all: try (apply services_list_drop; assumption).
  all: destruct (services_list kid e) as [|? [|? ?]];
    [reflexivity | discriminate ..].
Qed.

Lemma terminate_docker w :
  cls (self w) = ClsDockerProcessProxy ->
  terminate_container_resources w =
    DockerProcessProxy.terminate_container_resources w.
Proof. unfold terminate_container_resources. intros ->. reflexivity. Qed.

Lemma terminate_swarm w :
  cls (self w) = ClsDockerSwarmProcessProxy ->
  terminate_container_resources w =
    DockerSwarmProcessProxy.terminate_container_resources w.
Proof. unfold terminate_container_resources. intros ->. reflexivity. Qed.

(** C5.  [terminate_container_resources] returns the value of success,
    without raising, when the engine lists no runtime object for the identity
    of [self], and when it lists one whose removal goes through.  Whenever a
    call has returned the value of success, [container_name] is [None]
    afterwards, the engine lists nothing any more, and a second call made
    straight after returns the value of success again. *)
Theorem C5_terminate_idempotent w :
  (listed w = [] -> fst (terminate_container_resources w) = Ok None) /\
  (forall o, listed w = [o] -> removal o = None ->
     fst (terminate_container_resources w) = Ok None) /\
  (fst (terminate_container_resources w) = Ok None ->
     let w' := snd (terminate_container_resources w) in
     container_name (self w') = None /\
     listed w' = [] /\
     fst (terminate_container_resources w') = Ok None).
Proof.
  destruct (cls (self w)) eqn:E;
    [rewrite (terminate_docker w E) | rewrite (terminate_swarm w E)];
    cbv zeta; repeat split.
  - rewrite listed_docker by assumption. intros H%map_eq_none.
    apply docker_terminate_none; assumption.
  - intros o H Hr. rewrite listed_docker in H by assumption.
    apply map_eq_one in H. destruct H as (c & H & <-).
    apply (docker_terminate_removed w c); assumption.
  - apply docker_terminate_success; assumption.
  - destruct (docker_terminate_success w H) as (_ & Hc & Hl).
    rewrite E in Hc. rewrite listed_docker, Hl by assumption. reflexivity.
  - destruct (docker_terminate_success w H) as (_ & Hc & Hl).
    rewrite E in Hc. rewrite terminate_docker by assumption.
    apply docker_terminate_none; assumption.
  - rewrite listed_swarm by assumption. intros H%map_eq_none.
    apply swarm_terminate_none; assumption.
  - intros o H Hr. rewrite listed_swarm in H by assumption.
    apply map_eq_one in H. destruct H as (s & H & <-).
    apply (swarm_terminate_removed w s); assumption.
  - apply swarm_terminate_success; assumption.
  - destruct (swarm_terminate_success w H) as (_ & Hc & Hl).
    rewrite E in Hc. rewrite listed_swarm, Hl by assumption. reflexivity.
  - destruct (swarm_terminate_success w H) as (_ & Hc & Hl).
    rewrite E in Hc. rewrite terminate_swarm by assumption.
    apply swarm_terminate_none; assumption.
Qed.

Lemma C5_terminate_idempotent_witness :
  let w := docker_world [named "172.17.0.2"] in
  let w' := snd (terminate_container_resources w) in
  fst (terminate_container_resources w) = Ok None /\
  container_name (self w') = None /\
  listed w' = [] /\
  fst (terminate_container_resources w') = Ok None.
Proof.
  intros w w'.
  assert (H : fst (terminate_container_resources w) = Ok None).
  { apply (proj1 (proj2 (C5_terminate_idempotent w)) (a_container (named "172.17.0.2")));
      reflexivity. }
  split; [exact H|].
  exact (proj2 (proj2 (C5_terminate_idempotent w)) H).
Defined.

(** ** Removal that raises *)

Lemma docker_terminate_raises w c e :
  containers_list (kernel_id (self w)) (client w) = [c] ->
  c_remove c = Some e ->
  let r := DockerProcessProxy.terminate_container_resources w in
  if is_NotFound e
  then fst r = Ok None /\ container_name (self (snd r)) = None
  else fst r = Ok (Some false) /\
       container_name (self (snd r)) = container_name (self w) /\
       client (snd r) = client w /\
       exists records,
         log (self (snd r)) = log (self w) ++ records /\
         In (WARNING, [Lit "Error occurred removing container: "; FmtExn e])
            records.
Proof.
  intros H Hr. unfold DockerProcessProxy.terminate_container_resources.
  cbv beta delta [bind]. rewrite (get_container_one _ c) by assumption.
  run. rewrite Hr. destruct (is_NotFound e); simpl.
  - split; reflexivity.
  - repeat split. eexists. rewrite <- !app_assoc. split; [reflexivity|].
    simpl. auto.
Qed.

Lemma swarm_terminate_raises w s e :
  services_list (kernel_id (self w)) (client w) = [s] ->
  s_remove s = Some e ->
  let r := DockerSwarmProcessProxy.terminate_container_resources w in
  if is_NotFound e
  then fst r = Ok None /\ container_name (self (snd r)) = None
  else fst r = Ok (Some false) /\
       container_name (self (snd r)) = Some (s_name s) /\
       client (snd r) = client w /\
       exists records,
         log (self (snd r)) = log (self w) ++ records /\
         In (WARNING, [Lit "Error occurred removing service: "; FmtExn e])
            records.
Proof.
  intros H Hr. unfold DockerSwarmProcessProxy.terminate_container_resources.
  cbv beta delta [bind]. rewrite (get_service_one _ s) by assumption.
  run. rewrite Hr. destruct (is_NotFound e); simpl.
  - split; reflexivity.
  - repeat split. eexists. rewrite <- !app_assoc. split; [reflexivity|].
    simpl. auto.
Qed.

(** C6, as amended.  When the removal of the only runtime object raises an
    exception that is a [NotFound], the call returns the value of success and
    [container_name] is [None] afterwards.  When it raises any other
    exception, the call does not raise: it returns [False], the engine is as
    it was, a warning that carries the exception is added to the log, and
    [container_name] is not cleared: for a container it is what it was before
    the call, for a service it is the name of that service, which the lookup
    has just stored. *)
Theorem C6_removal_raises w o e :
  listed w = [o] ->
  removal o = Some e ->
  let r := terminate_container_resources w in
  if is_NotFound e
  then fst r = Ok None /\ container_name (self (snd r)) = None
  else fst r = Ok (Some false) /\
       container_name (self (snd r)) =
         match o with
         | a_container _ => container_name (self w)
         | a_service s => Some (s_name s)
         end /\
       client (snd r) = client w /\
       exists records text,
         log (self (snd r)) = log (self w) ++ records /\
         In (WARNING, [Lit text; FmtExn e]) records.
Proof.
  unfold terminate_container_resources.
  destruct (cls (self w)) eqn:E; intros H Hr.
  - rewrite listed_docker in H by assumption.
    apply map_eq_one in H. destruct H as (c & H & <-).
    pose proof (docker_terminate_raises w c e H Hr) as P. cbv zeta in *.
    destruct (is_NotFound e); [exact P|].
    destruct P as (? & ? & ? & records & ? & ?). eauto 10.
  - rewrite listed_swarm in H by assumption.
    apply map_eq_one in H. destruct H as (s & H & <-).
    pose proof (swarm_terminate_raises w s e H Hr) as P. cbv zeta in *.
    destruct (is_NotFound e); [exact P|].
    destruct P as (? & ? & ? & records & ? & ?). eauto 10.
Qed.

Lemma C6_removal_raises_witness :
  let w1 := docker_world [kernel_container "c1" "k1" "running" PNone
                            (Some (NotFound "gone"))] in
  let w2 := swarm_world [stuck_service] in
  (fst (terminate_container_resources w1) = Ok None /\
   container_name (self (snd (terminate_container_resources w1))) = None) /\
  (fst (terminate_container_resources w2) = Ok (Some false) /\
   container_name (self (snd (terminate_container_resources w2))) = Some "svc" /\
   client (snd (terminate_container_resources w2)) = client w2 /\
   exists records text,
     log (self (snd (terminate_container_resources w2))) = log (self w2) ++ records /\
     In (WARNING, [Lit text; FmtExn (APIError "boom")]) records).
Proof.
  intros w1 w2. split.
  - apply (C6_removal_raises w1 _ (NotFound "gone") eq_refl eq_refl).
  - apply (C6_removal_raises w2 _ (APIError "boom") eq_refl eq_refl).
Defined.

(** C6 as stated fails where it says that [container_name] is left unchanged:
    a proxy of a service that was never polled has no [container_name], and a
    termination whose removal the engine refuses leaves the name of the
    service in it. *)
Lemma C6_counterexample :
  let w := swarm_world [stuck_service] in
  fst (terminate_container_resources w) = Ok (Some false) /\
  container_name (self w) = None /\
  container_name (self (snd (terminate_container_resources w))) = Some "svc" /\
  container_name (self (snd (terminate_container_resources w)))
    <> container_name (self w).
Proof. cbv zeta. repeat split. discriminate. Qed.

(** ** The address of a task *)

Lemma split_head sep s :
  exists w ws,
    split sep s = w :: ws /\
    occurs sep w = false /\
    (s = w \/ exists rest, s = String.append w (String sep rest)).
Proof.
  induction s as [|c s IH]; simpl.
  - exists EmptyString, []. auto.
  - destruct (Ascii.eqb c sep) eqn:E.
    + apply Ascii.eqb_eq in E. subst c.
      exists EmptyString, (split sep s). simpl. eauto.
    + destruct IH as (w & ws & -> & Hw & Hs).
      exists (String c w), ws. simpl. rewrite E, Hw.
      repeat split.
      destruct Hs as [-> | (rest & ->)]; [left | right; exists rest];
        reflexivity.
Qed.

Lemma getitem_truthy v k x : getitem v k = Ok x -> truthy v = true.
Proof.
  destruct v as [| | | |d]; simpl; try discriminate.
  destruct d; simpl; [discriminate | reflexivity].
Qed.

Lemma get_status_swarm net it w :
  cls (self w) = ClsDockerSwarmProcessProxy ->
  get_container_status net it w =
    DockerSwarmProcessProxy.get_container_status it w.
Proof. unfold get_container_status. intros ->. reflexivity. Qed.

Lemma get_status_docker net it w :
  cls (self w) = ClsDockerProcessProxy ->
  get_container_status net it w =
    DockerProcessProxy.get_container_status net it w.
Proof. unfold get_container_status. intros ->. reflexivity. Qed.

(** C7.  For a proxy of a service whose [assigned_host] is still empty or
    [None]: when the only task with desired state running reports a state
    that reads "running" once lowercased and has at least one network
    attachment, whose first address is [addr], [get_container_status] returns
    "running", stores in [assigned_ip] the text of [addr] before its first
    ['/'] (all of [addr] when it has none), and stores in [assigned_host] the
    name of the service, which is also [container_name]. *)
Theorem C7_swarm_address_of_first_attachment
    net it w s task tid status state att atts addr addrs :
  cls (self w) = ClsDockerSwarmProcessProxy ->
  services_list (kernel_id (self w)) (client w) = [s] ->
  service_tasks "running" s = [task] ->
  getitem task "ID" = Ok tid ->
  getitem task "Status" = Ok status ->
  getitem status "State" = Ok (PStr state) ->
  lower state = "running" ->
  truthy_str (assigned_host (self w)) = false ->
  getitem task "NetworksAttachments" = Ok (PList (att :: atts)) ->
  getitem att "Addresses" = Ok (PList (PStr addr :: addrs)) ->
  let r := get_container_status net it w in
  fst r = Ok "running" /\
  assigned_host (self (snd r)) = Some (s_name s) /\
  container_name (self (snd r)) = Some (s_name s) /\
  exists ip,
    assigned_ip (self (snd r)) = PStr ip /\
    occurs "/" ip = false /\
    (addr = ip \/ exists rest, addr = String.append ip (String "/" rest)).
Proof.
  intros E Hs Ht Hid Hst Hstate Hrun Hhost Hatt Haddr.
  rewrite get_status_swarm by assumption.
  unfold DockerSwarmProcessProxy.get_container_status,
    DockerSwarmProcessProxy._get_task, DockerSwarmProcessProxy.capture_ip.
  cbv beta delta [bind]. rewrite (get_service_one _ s) by assumption.
  rewrite Ht. run. cbn.
  rewrite (getitem_truthy _ _ _ Hid), Hid, Hst. cbn.
  rewrite (getitem_truthy _ _ _ Hstate), Hstate. cbn.
  rewrite Hrun, Hhost. cbn. rewrite Hatt. cbn. rewrite Haddr. cbn.
  destruct (split_head "/" addr) as (ip & ws & -> & Hip & Hsplit).
  destruct (truthy_int it); cbn; repeat split; exists ip; auto.
Qed.

Lemma C7_swarm_address_of_first_attachment_witness :
  let w := swarm_world
             [kernel_service "s1" "svc"
                [swarm_task "t1" "running" "Running"
                   (Some (PList [attachment ["10.0.0.7/24"]]))] None] in
  let r := get_container_status "bridge" (Some 1) w in
  fst r = Ok "running" /\
  assigned_host (self (snd r)) = Some "svc" /\
  container_name (self (snd r)) = Some "svc" /\
  exists ip,
    assigned_ip (self (snd r)) = PStr ip /\
    occurs "/" ip = false /\
    ("10.0.0.7/24" = ip \/
     exists rest, "10.0.0.7/24" = String.append ip (String "/" rest)).
Proof.
  intros w.
  apply (C7_swarm_address_of_first_attachment "bridge" (Some 1) w
           (kernel_service "s1" "svc"
              [swarm_task "t1" "running" "Running"
                 (Some (PList [attachment ["10.0.0.7/24"]]))] None)
           (swarm_task "t1" "running" "Running"
              (Some (PList [attachment ["10.0.0.7/24"]])))
           (PStr "t1") (PDict [("State", PStr "Running")]) "Running"
           (attachment ["10.0.0.7/24"]) [] "10.0.0.7/24" []);
    reflexivity.
Defined.

Example swarm_scenario_address :
  assigned_ip
    (self (snd (get_container_status "bridge" (Some 1)
                  (swarm_world
                     [kernel_service "s1" "svc"
                        [swarm_task "t1" "running" "Running"
                           (Some (PList [attachment ["10.0.0.7/24"]]))] None]))))
  = PStr "10.0.0.7".
Proof. reflexivity. Qed.

(** ** The phase is the lowercased status *)













Example docker_scenario_exited :
  get_container_status "bridge" None
    (docker_world [kernel_container "c1" "k1" "ExiTed" PNone None])
  = (Ok "exited",
     mkWorld (mkEngine [kernel_container "c1" "k1" "ExiTed" PNone None] [])
       (mkProxy ClsDockerProcessProxy "abc" (Some "k1") PNone None [])).
Proof. reflexivity. Qed.

(** ** The launch environment *)

(** C9.  [launch_process] of either class hands the base class the base
    environment with two entries written, ["EG_DOCKER_MODE"] (to "docker" for
    the one class, "swarm" for the other) and ["EG_DOCKER_NETWORK"] (to the
    configured network name): these two keys join the keys of the base
    environment, and every other key reads as it did. *)
Theorem C9_launch_environment c net (env : gmap string string) :
  (forall (R : Type) (super_launch_process : string -> gmap string string -> R)
          kernel_cmd,
     DockerProcessProxy.launch_process super_launch_process net kernel_cmd env
       = super_launch_process kernel_cmd (launch_env ClsDockerProcessProxy net env) /\
     DockerSwarmProcessProxy.launch_process super_launch_process net kernel_cmd env
       = super_launch_process kernel_cmd (launch_env ClsDockerSwarmProcessProxy net env)) /\
  launch_env c net env !! "EG_DOCKER_MODE" = Some (mode_tag c) /\
  launch_env c net env !! "EG_DOCKER_NETWORK" = Some net /\
  (forall k : string,
     k <> "EG_DOCKER_MODE" -> k <> "EG_DOCKER_NETWORK" ->
     launch_env c net env !! k = env !! k) /\
  dom (launch_env c net env)
    = {[ "EG_DOCKER_MODE"; "EG_DOCKER_NETWORK" ]} ∪ dom env.
Proof.
  split; [intros; split; reflexivity|].
  destruct c; unfold launch_env, DockerProcessProxy.launch_env,
    DockerSwarmProcessProxy.launch_env, mode_tag.
  all: split; [simplify_map_eq; reflexivity|].
  all: split; [simplify_map_eq; reflexivity|].
  all: split; [intros k H1 H2; simplify_map_eq; reflexivity|].
  all: rewrite !dom_insert_L, (assoc_L (∪)); reflexivity.
Qed.

Lemma C9_launch_environment_witness :
  launch_env ClsDockerProcessProxy "bridge" {[ "KERNEL_ID" := "abc" ]} !! "KERNEL_ID"
  = Some "abc".
Proof.
  rewrite (proj1 (proj2 (proj2 (proj2
             (C9_launch_environment ClsDockerProcessProxy "bridge"
                {[ "KERNEL_ID" := "abc" ]})))) "KERNEL_ID");
    [reflexivity | discriminate | discriminate].
Defined.

Example launch_env_overwrites :
  launch_env ClsDockerSwarmProcessProxy "overlay"
    {[ "EG_DOCKER_MODE" := "docker"; "KERNEL_ID" := "abc" ]}
  = {[ "EG_DOCKER_MODE" := "swarm"; "EG_DOCKER_NETWORK" := "overlay";
       "KERNEL_ID" := "abc" ]}.
Proof.
  apply map_eq. intros k. unfold launch_env, DockerSwarmProcessProxy.launch_env.
  destruct (decide (k = "EG_DOCKER_MODE")) as [->|];
    [|destruct (decide (k = "EG_DOCKER_NETWORK")) as [->|];
      [|destruct (decide (k = "KERNEL_ID")) as [->|]]];
    simplify_map_eq; reflexivity.
Qed.

(** ** Where [container_name] is assigned *)

Lemma swarm_status_names_service it w s :
  services_list (kernel_id (self w)) (client w) = [s] ->
  container_name (self (snd (DockerSwarmProcessProxy.get_container_status it w)))
    = Some (s_name s).
Proof.
  intros H.
  unfold DockerSwarmProcessProxy.get_container_status,
    DockerSwarmProcessProxy._get_task, DockerSwarmProcessProxy.capture_ip.
  cbv beta delta [bind]. rewrite (get_service_one _ s) by assumption. run.
  repeat (split_inner; run); reflexivity.
Qed.

Lemma swarm_terminate_reads_name w s :
  services_list (kernel_id (self w)) (client w) = [s] ->
  exists lvl text text' older,
    log (self (snd (DockerSwarmProcessProxy.terminate_container_resources w))) =
      older ++ [(lvl, [Fmt (PStr (class_name (cls (self w)))); Lit text;
                       Fmt (PStr (s_name s)); Lit ", kernel ID: ";
                       Fmt (PStr (kernel_id (self w))); Lit text'])].
Proof.
  intros H. unfold DockerSwarmProcessProxy.terminate_container_resources.
  cbv beta delta [bind]. rewrite (get_service_one _ s) by assumption. run.
  repeat (split_inner; run); cbn; do 4 eexists; reflexivity.
Qed.

Lemma docker_terminate_unpolled w c :
  containers_list (kernel_id (self w)) (client w) = [c] ->
  c_remove c = None ->
  DockerProcessProxy.terminate_container_resources w =
    (Ok None,
     mkWorld (drop_container (c_id c) (client w))
       (mkProxy (cls (self w)) (kernel_id (self w)) None
          (assigned_ip (self w)) (assigned_host (self w))
          (log (self w) ++
           [(DEBUG,
             [Fmt (PStr (class_name (cls (self w))));
              Lit ".terminate_container_resources, container ";
              Fmt (of_str (container_name (self w))); Lit ", kernel ID: ";
              Fmt (PStr (kernel_id (self w))); Lit " has been terminated."])]))).
Proof.
  intros H Hr. unfold DockerProcessProxy.terminate_container_resources.
  cbv beta delta [bind]. rewrite (get_container_one _ c) by assumption.
  run. rewrite Hr. reflexivity.
Qed.

(** C10.  [_get_service] with exactly one service listed returns it and stores
    its name in [container_name].  Hence, for a proxy of a service, every
    [get_container_status] that finds exactly one service ends with
    [container_name] equal to the name of the service, whatever it returns or
    raises, also when no task has desired state running and the call returns
    the empty string; and every [terminate_container_resources] that finds
    exactly one service writes its closing log record with that name read
    from [container_name].  [_get_container] changes nothing at all, so for a
    proxy of a container only [get_container_status] assigns [container_name]:
    a termination whose removal goes through returns the value of success,
    leaves nothing listed, and its log record shows the [container_name] from
    before the call, which is [None] for a proxy that was never polled. *)
Theorem C10_lookup_names_service_only net it w :
  (forall s,
     services_list (kernel_id (self w)) (client w) = [s] ->
     fst (DockerSwarmProcessProxy._get_service w) = Ok (Some s) /\
     container_name (self (snd (DockerSwarmProcessProxy._get_service w)))
       = Some (s_name s)) /\
  (forall s,
     listed w = [a_service s] ->
     container_name (self (snd (get_container_status net it w)))
       = Some (s_name s) /\
     (service_tasks "running" s = [] ->
      fst (get_container_status net it w) = Ok EmptyString) /\
     exists lvl text text' older,
       log (self (snd (terminate_container_resources w))) =
         older ++ [(lvl, [Fmt (PStr (class_name (cls (self w)))); Lit text;
                          Fmt (PStr (s_name s)); Lit ", kernel ID: ";
                          Fmt (PStr (kernel_id (self w))); Lit text'])]) /\
  snd (DockerProcessProxy._get_container w) = w /\
  (forall c,
     listed w = [a_container c] ->
     c_remove c = None ->
     let r := terminate_container_resources w in
     fst r = Ok None /\
     listed (snd r) = [] /\
     container_name (self (snd r)) = None /\
     log (self (snd r)) =
       log (self w) ++
       [(DEBUG,
         [Fmt (PStr (class_name (cls (self w))));
          Lit ".terminate_container_resources, container ";
          Fmt (of_str (container_name (self w))); Lit ", kernel ID: ";
          Fmt (PStr (kernel_id (self w))); Lit " has been terminated."])]).
Proof.
  split; [|split; [|split]].
  - intros s H. rewrite (get_service_one _ s) by assumption. split; reflexivity.
  - intros s H. destruct (cls (self w)) eqn:E.
    + rewrite listed_docker in H by assumption.
      apply map_eq_one in H. destruct H as (c' & _ & Hc). discriminate Hc.
    + rewrite listed_swarm in H by assumption.
      apply map_eq_one in H. destruct H as (s' & H & Hs). injection Hs as ->.
      rewrite get_status_swarm, terminate_swarm by assumption.
      split; [apply swarm_status_names_service; assumption|].
      split; [|rewrite <- E; apply swarm_terminate_reads_name; assumption].
      intros Ht. apply (swarm_status_no_task it w s H Ht).
  - apply get_container_frame.
  - intros c H Hr. destruct (cls (self w)) eqn:E.
    + rewrite listed_docker in H by assumption.
      apply map_eq_one in H. destruct H as (c' & H & Hc). injection Hc as ->.
      rewrite terminate_docker by assumption.
      rewrite (docker_terminate_unpolled w c H Hr). cbv zeta. cbn [fst snd].
      rewrite E.
      repeat split. unfold listed. cbn [self cls kernel_id client].
      rewrite (containers_list_drop _ _ c H). reflexivity.
    + rewrite listed_swarm in H by assumption.
      apply map_eq_one in H. destruct H as (c' & _ & Hc). discriminate Hc.
Qed.

Lemma C10_lookup_names_service_only_witness :
  let w1 := swarm_world [kernel_service "s1" "svc"
                           [swarm_task "t0" "shutdown" "Failed" None] None] in
  let w2 := docker_world [named "172.17.0.2"] in
  (container_name (self (snd (get_container_status "bridge" None w1))) = Some "svc" /\
   fst (get_container_status "bridge" None w1) = Ok EmptyString) /\
  (fst (terminate_container_resources w2) = Ok None /\
   listed (snd (terminate_container_resources w2)) = [] /\
   container_name (self (snd (terminate_container_resources w2))) = None /\
   log (self (snd (terminate_container_resources w2))) =
     [(DEBUG,
       [Fmt (PStr "DockerProcessProxy");
        Lit ".terminate_container_resources, container ";
        Fmt PNone; Lit ", kernel ID: ";
        Fmt (PStr "abc"); Lit " has been terminated."])]).
Proof.
  intros w1 w2. split.
  - destruct (proj1 (proj2 (C10_lookup_names_service_only "bridge" None w1))
                (kernel_service "s1" "svc"
                   [swarm_task "t0" "shutdown" "Failed" None] None) eq_refl)
      as (Hn & He & _).
    split; [exact Hn | exact (He eq_refl)].
  - exact (proj2 (proj2 (proj2 (C10_lookup_names_service_only "bridge" None w2)))
             (named "172.17.0.2") eq_refl eq_refl).
Defined.

(** ** The fallback address of a container *)

Example docker_scenario_configured_network :
  get_container_status "bridge" None
    (docker_world
       [kernel_container "c1" "k1" "Running"
          (settings "172.17.0.2" [("bridge", one_net "172.17.0.2")]) None])
  = (Ok "running",
     mkWorld
       (mkEngine
          [kernel_container "c1" "k1" "Running"
             (settings "172.17.0.2" [("bridge", one_net "172.17.0.2")]) None] [])
       (mkProxy ClsDockerProcessProxy "abc" (Some "k1") (PStr "172.17.0.2")
          (Some "k1")
          [(DEBUG,
            [Lit "Using assigned_ip "; Fmt (PStr "172.17.0.2");
             Lit " from docker network '"; Fmt (PStr "bridge"); Lit "'."])])).
Proof. reflexivity. Qed.

Section Capture.

Variables (net : string) (it : option Z) (w : World) (c : Container).
Variables (s : string) (ns : list (string * pyval)) (networks : pyval).

Hypothesis one : containers_list (kernel_id (self w)) (client w) = [c].
Hypothesis status : c_status c = Some s.
Hypothesis running : lower s = "running".
Hypothesis first : truthy_str (assigned_host (self w)) = false.
Hypothesis attrs : dict_get (c_attrs c) "NetworkSettings" = Ok (PDict ns).
Hypothesis nets : dict_get (PDict ns) "Networks" = Ok networks.

Local Abbreviation r := (DockerProcessProxy.get_container_status net it w).

Local Ltac enter_capture :=
  unfold DockerProcessProxy.get_container_status,
    DockerProcessProxy.capture_ip;
  cbv beta delta [bind]; rewrite (get_container_one _ c) by assumption;
  run; rewrite status; cbn;
  assert (Hn : nonempty_string s = true)
    by (destruct s; [discriminate running | reflexivity]);
  rewrite Hn, running; cbn; rewrite first; cbn; rewrite attrs; cbn;
  destruct (dict_lookup "IPAddress" ns) as [fallback|] eqn:Hf; cbn;
  cbn in nets; rewrite nets.

(** The configured network is among the networks of the container. *)
Lemma docker_capture_configured_network d info :
  networks = PDict d ->
  dict_lookup net d = Some (PDict info) ->
  fst r = Ok "running" /\
  Ok (assigned_ip (self (snd r))) = dict_get (PDict info) "IPAddress" /\
  assigned_host (self (snd r)) = c_name c.
Proof.
  intros -> Hd. enter_capture.
  all: destruct d as [|kv d]; [discriminate Hd|]; cbn -[dict_lookup].
  all: rewrite Hd; cbn.
  all: destruct (dict_lookup "IPAddress" info); cbn.
  all: destruct (truthy_int it); cbn; repeat split.
Qed.

(** The container has no network at all. *)
Lemma docker_capture_no_network :
  networks = PDict [] ->
  fst r = Ok "running" /\
  Ok (assigned_ip (self (snd r))) = dict_get (PDict ns) "IPAddress" /\
  assigned_host (self (snd r)) = c_name c /\
  exists records ip,
    log (self (snd r)) = log (self w) ++ records /\
    In (WARNING,
        [Lit "Docker network '"; Fmt (PStr net);
         Lit "' could not be located in container attributes - using assigned_ip '";
         Fmt ip; Lit "'."]) records.
Proof.
  intros ->. enter_capture.
  all: cbn; destruct (truthy_int it); cbn; repeat split.
  all: eexists; eexists; rewrite <- ?app_assoc; split; [reflexivity|].
  all: cbn; auto.
Qed.

(** The container has networks, and the configured one is not among
    them. *)
Lemma docker_capture_other_network kv d :
  networks = PDict (kv :: d) ->
  dict_lookup net (kv :: d) = None ->
  fst r = Raise AttributeError /\
  Ok (assigned_ip (self (snd r))) = dict_get (PDict ns) "IPAddress" /\
  assigned_host (self (snd r)) = assigned_host (self w) /\
  log (self (snd r)) = log (self w).
Proof.
  intros -> Hd. enter_capture.
  all: cbn -[dict_lookup]; rewrite Hd; cbn; repeat split.
Qed.

End Capture.

(** C2 fails on the code.  The container [elsewhere] runs, its default
    address is 172.17.0.2 and its only network is not the configured
    "bridge": the first poll raises [AttributeError] after it has stored the
    default address, and leaves [assigned_host] unset and the log empty. *)
Theorem C2_other_network_raises :
  get_container_status "bridge" None (docker_world [elsewhere]) =
    (Raise AttributeError,
     mkWorld (mkEngine [elsewhere] [])
       (mkProxy ClsDockerProcessProxy "abc" (Some "k1") (PStr "172.17.0.2")
          None [])).
Proof. reflexivity. Qed.


(** * Further properties of the two classes *)

(** ** The tables of states *)

(** X1.  For either class no state is both an initial state and an error
    state, "running" is an initial state, and every state of either table is
    written in lower case, so that it can be met by a value that
    [get_container_status] returns. *)
Theorem X1_state_tables c :
  get_initial_states c ## get_error_states c /\
  "running" ∈ get_initial_states c /\
  (forall s : string,
     s ∈ get_initial_states c ∪ get_error_states c -> lower s = s).
Proof.
  destruct c; cbn [get_initial_states get_error_states];
    unfold DockerProcessProxy.get_initial_states,
      DockerProcessProxy.get_error_states,
      DockerSwarmProcessProxy.get_initial_states,
      DockerSwarmProcessProxy.get_error_states.
  all: split; [apply (bool_decide_unpack _); vm_compute; exact I|].
  all: split; [apply (bool_decide_unpack _); vm_compute; exact I|].
  all: intros s Hs;
    repeat (apply elem_of_union in Hs; destruct Hs as [Hs|Hs]);
    apply elem_of_singleton in Hs; subst s; reflexivity.
Qed.

Lemma X1_state_tables_witness :
  lower "running" = "running" /\ lower "shutdown" = "shutdown".
Proof.
  split.
  - apply (proj2 (proj2 (X1_state_tables ClsDockerProcessProxy))).
    apply (bool_decide_unpack _). vm_compute. exact I.
  - apply (proj2 (proj2 (X1_state_tables ClsDockerSwarmProcessProxy))).
    apply (bool_decide_unpack _). vm_compute. exact I.
Defined.

(** ** The task of a service *)

Lemma filter_nothing {A} (f : A -> bool) (l : list A) :
  Forall (fun x => f x = false) l -> List.filter f l = [].
Proof.
  induction 1 as [|x l Hx _ IH]; simpl; [reflexivity|].
  rewrite Hx. exact IH.
Qed.

(** X2.  When the only service listed has exactly one task whose desired
    state is running, [_get_task] returns that task and does not raise,
    however many other tasks, with another desired state or none, the service
    has before and after it. *)
Theorem X2_task_with_desired_state_running w s before t after :
  services_list (kernel_id (self w)) (client w) = [s] ->
  s_tasks s = before ++ t :: after ->
  desired_state_is "running" t = true ->
  Forall (fun x => desired_state_is "running" x = false) (before ++ after) ->
  fst (DockerSwarmProcessProxy._get_task w) = Ok (Some t).
Proof.
  intros H Hs Ht Hothers. apply Forall_app in Hothers as [Hb Ha].
  unfold DockerSwarmProcessProxy._get_task. cbv beta delta [bind].
  rewrite (get_service_one _ s) by assumption.
  unfold service_tasks. rewrite Hs, List.filter_app. simpl. rewrite Ht.
  rewrite (filter_nothing _ _ Hb), (filter_nothing _ _ Ha). reflexivity.
Qed.

Lemma X2_task_with_desired_state_running_witness :
  fst (DockerSwarmProcessProxy._get_task (swarm_world [restarted_service]))
  = Ok (Some (swarm_task "t1" "running" "Starting" None)).
Proof.
  apply (X2_task_with_desired_state_running
           (swarm_world [restarted_service]) restarted_service
           [swarm_task "t0" "shutdown" "Failed" None]
           (swarm_task "t1" "running" "Starting" None) []).
  - reflexivity.
  - reflexivity.
  - reflexivity.
  - repeat constructor.
Defined.

(** ** What a poll leaves alone *)

Ltac log_extended :=
  first [ exists []; rewrite app_nil_r; reflexivity
        | eexists; rewrite <- ?app_assoc; reflexivity ].

Lemma docker_status_frame net it w :
  let w' := snd (DockerProcessProxy.get_container_status net it w) in
  client w' = client w /\
  cls (self w') = cls (self w) /\
  kernel_id (self w') = kernel_id (self w) /\
  exists records, log (self w') = log (self w) ++ records.
Proof.
  destruct w as [e [c kid name ip host lg]].
  unfold DockerProcessProxy.get_container_status,
    DockerProcessProxy._get_container, DockerProcessProxy.capture_ip. run.
  repeat (split_inner; run); repeat split; log_extended.
Qed.

Lemma swarm_status_frame it w :
  let w' := snd (DockerSwarmProcessProxy.get_container_status it w) in
  client w' = client w /\
  cls (self w') = cls (self w) /\
  kernel_id (self w') = kernel_id (self w) /\
  exists records, log (self w') = log (self w) ++ records.
Proof.
  destruct w as [e [c kid name ip host lg]].
  unfold DockerSwarmProcessProxy.get_container_status,
    DockerSwarmProcessProxy._get_task, DockerSwarmProcessProxy._get_service,
    DockerSwarmProcessProxy.capture_ip. run.
  repeat (split_inner; run); repeat split; log_extended.
Qed.

(** X3.  [get_container_status] of either class, whether it returns or
    raises, asks the engine to change nothing, keeps the class and the
    [kernel_id] of the proxy, and only appends to the log. *)
Theorem X3_status_changes_no_engine net it w :
  let w' := snd (get_container_status net it w) in
  client w' = client w /\
  cls (self w') = cls (self w) /\
  kernel_id (self w') = kernel_id (self w) /\
  exists records, log (self w') = log (self w) ++ records.
Proof.
  unfold get_container_status. destruct (cls (self w)) eqn:E; rewrite <- E.
  - apply docker_status_frame.
  - apply swarm_status_frame.
Qed.

(** ** What a termination leaves alone *)

Lemma docker_terminate_frame w :
  let w' := snd (DockerProcessProxy.terminate_container_resources w) in
  same_address w w' /\
  cls (self w') = cls (self w) /\
  kernel_id (self w') = kernel_id (self w) /\
  (exists records, log (self w') = log (self w) ++ records) /\
  (client w' = client w \/
   exists c, containers_list (kernel_id (self w)) (client w) = [c] /\
             client w' = drop_container (c_id c) (client w)).
Proof.
  unfold same_address. destruct w as [e [c kid name ip host lg]].
  unfold DockerProcessProxy.terminate_container_resources,
    DockerProcessProxy._get_container. run.
  repeat (split_inner; run); use_tests; repeat split; try log_extended.
  all: first [left; reflexivity | right; eexists; split; reflexivity].
Qed.

Lemma swarm_terminate_frame w :
  let w' := snd (DockerSwarmProcessProxy.terminate_container_resources w) in
  same_address w w' /\
  cls (self w') = cls (self w) /\
  kernel_id (self w') = kernel_id (self w) /\
  (exists records, log (self w') = log (self w) ++ records) /\
  (client w' = client w \/
   exists s, services_list (kernel_id (self w)) (client w) = [s] /\
             client w' = drop_service (s_id s) (client w)).
Proof.
  unfold same_address. destruct w as [e [c kid name ip host lg]].
  unfold DockerSwarmProcessProxy.terminate_container_resources,
    DockerSwarmProcessProxy._get_service. run.
  repeat (split_inner; run); use_tests; repeat split; try log_extended.
  all: first [left; reflexivity | right; eexists; split; reflexivity].
Qed.

(** X4.  [terminate_container_resources] of either class never touches
    [assigned_ip] or [assigned_host]: an address captured by an earlier poll
    is still there after the termination.  It keeps the class and the
    [kernel_id], only appends to the log, and the engine afterwards is either
    as it was or lacks the one runtime object that was listed: nothing else
    is ever removed. *)
Theorem X4_terminate_keeps_address w :
  let w' := snd (terminate_container_resources w) in
  same_address w w' /\
  cls (self w') = cls (self w) /\
  kernel_id (self w') = kernel_id (self w) /\
  (exists records, log (self w') = log (self w) ++ records) /\
  (client w' = client w \/
   exists o, listed w = [o] /\ client w' = drop o (client w)).
Proof.
  cbv zeta. destruct (cls (self w)) eqn:E.
  - rewrite terminate_docker by assumption.
    destruct (docker_terminate_frame w) as (Ha & Hc & Hk & Hl & He).
    rewrite E in Hc.
    split; [exact Ha|]. split; [exact Hc|]. split; [exact Hk|].
    split; [exact Hl|].
    destruct He as [He | (c & Hc' & He)]; [left; exact He|].
    right. exists (a_container c). rewrite listed_docker, Hc' by assumption.
    split; [reflexivity | exact He].
  - rewrite terminate_swarm by assumption.
    destruct (swarm_terminate_frame w) as (Ha & Hc & Hk & Hl & He).
    rewrite E in Hc.
    split; [exact Ha|]. split; [exact Hc|]. split; [exact Hk|].
    split; [exact Hl|].
    destruct He as [He | (s & Hs' & He)]; [left; exact He|].
    right. exists (a_service s). rewrite listed_swarm, Hs' by assumption.
    split; [reflexivity | exact He].
Qed.

(** ** The value of a termination *)

Lemma docker_terminate_outcome w :
  (length (containers_list (kernel_id (self w)) (client w)) <= 1)%nat ->
  let r := fst (DockerProcessProxy.terminate_container_resources w) in
  (r = Ok None \/ r = Ok (Some false)) /\
  (r = Ok (Some false) <->
   exists c e, containers_list (kernel_id (self w)) (client w) = [c] /\
               c_remove c = Some e /\ is_NotFound e = false).
Proof.
  intros Hlen. unfold DockerProcessProxy.terminate_container_resources.
  cbv beta delta [bind].
  destruct (containers_list (kernel_id (self w)) (client w))
    as [|c [|c' l]] eqn:Hl; [| |simpl in Hlen; lia].
  - rewrite get_container_none by assumption. run. split; [left; reflexivity|].
    split; [discriminate | intros (c & e & Hc & _); discriminate Hc].
  - rewrite (get_container_one _ c) by assumption. run.
    destruct (c_remove c) as [e|] eqn:Hr; [destruct (is_NotFound e) eqn:Hn|];
      simpl.
    + split; [left; reflexivity|].
      split; [discriminate|].
      intros (c1 & e1 & Hc & He & Hn1). injection Hc as <-. congruence.
    + split; [right; reflexivity|].
      split; [intros _; exists c, e; auto | reflexivity].
    + split; [left; reflexivity|].
      split; [discriminate|].
      intros (c1 & e1 & Hc & He & Hn1). injection Hc as <-. congruence.
Qed.

Lemma swarm_terminate_outcome w :
  (length (services_list (kernel_id (self w)) (client w)) <= 1)%nat ->
  let r := fst (DockerSwarmProcessProxy.terminate_container_resources w) in
  (r = Ok None \/ r = Ok (Some false)) /\
  (r = Ok (Some false) <->
   exists s e, services_list (kernel_id (self w)) (client w) = [s] /\
               s_remove s = Some e /\ is_NotFound e = false).
Proof.
  intros Hlen. unfold DockerSwarmProcessProxy.terminate_container_resources.
  cbv beta delta [bind].
  destruct (services_list (kernel_id (self w)) (client w))
    as [|c [|c' l]] eqn:Hl; [| |simpl in Hlen; lia].
  - rewrite get_service_none by assumption. run. split; [left; reflexivity|].
    split; [discriminate | intros (c & e & Hc & _); discriminate Hc].
  - rewrite (get_service_one _ c) by assumption. run.
    destruct (s_remove c) as [e|] eqn:Hr; [destruct (is_NotFound e) eqn:Hn|];
      simpl.
    + split; [left; reflexivity|].
      split; [discriminate|].
      intros (c1 & e1 & Hc & He & Hn1). injection Hc as <-. congruence.
    + split; [right; reflexivity|].
      split; [intros _; exists c, e; auto | reflexivity].
    + split; [left; reflexivity|].
      split; [discriminate|].
      intros (c1 & e1 & Hc & He & Hn1). injection Hc as <-. congruence.
Qed.

(** X5.  With at most one runtime object listed,
    [terminate_container_resources] does not raise, whatever exception the
    removal raises, and returns either [None] or [False], never [True].  It
    returns [False] exactly when one object is listed and its removal raises
    an exception that is not a [NotFound]. *)
Theorem X5_terminate_outcome w :
  (length (listed w) <= 1)%nat ->
  let r := fst (terminate_container_resources w) in
  (r = Ok None \/ r = Ok (Some false)) /\
  (r = Ok (Some false) <->
   exists o e, listed w = [o] /\ removal o = Some e /\ is_NotFound e = false).
Proof.
  destruct (cls (self w)) eqn:E; intros Hlen.
  - rewrite terminate_docker by assumption.
    rewrite listed_docker in * by assumption. rewrite length_map in Hlen.
    destruct (docker_terminate_outcome w Hlen) as (H1 & H2).
    split; [exact H1|]. cbv zeta in *. rewrite H2. split.
    + intros (c & e & Hc & Hr & Hn). exists (a_container c), e.
      rewrite Hc. auto.
    + intros (o & e & Ho & Hr & Hn). apply map_eq_one in Ho.
      destruct Ho as (c & Hc & <-). eauto.
  - rewrite terminate_swarm by assumption.
    rewrite listed_swarm in * by assumption. rewrite length_map in Hlen.
    destruct (swarm_terminate_outcome w Hlen) as (H1 & H2).
    split; [exact H1|]. cbv zeta in *. rewrite H2. split.
    + intros (c & e & Hc & Hr & Hn). exists (a_service c), e.
      rewrite Hc. auto.
    + intros (o & e & Ho & Hr & Hn). apply map_eq_one in Ho.
      destruct Ho as (c & Hc & <-). eauto.
Qed.

Lemma X5_terminate_outcome_witness :
  let w := docker_world [kernel_container "c1" "k1" "running" PNone
                           (Some (KeyError "boom"))] in
  fst (terminate_container_resources w) = Ok (Some false).
Proof.
  intros w.
  apply (proj2 (X5_terminate_outcome w ltac:(simpl; lia))).
  eexists _, _. repeat split; reflexivity.
Defined.

(** ** A runtime object without a usable status *)

(** X6.  When the only container listed has no status, or the empty string
    for one, [get_container_status] returns the empty string and captures no
    address, but it does store the name of the container in
    [container_name]. *)
Theorem X6_docker_container_without_status net it w c :
  containers_list (kernel_id (self w)) (client w) = [c] ->
  truthy_str (c_status c) = false ->
  let r := DockerProcessProxy.get_container_status net it w in
  fst r = Ok EmptyString /\
  container_name (self (snd r)) = c_name c /\
  same_address w (snd r).
Proof.
  intros H Hs. unfold DockerProcessProxy.get_container_status, same_address.
  cbv beta delta [bind]. rewrite (get_container_one _ c) by assumption.
  run. rewrite Hs. destruct (truthy_int it); cbn; repeat split.
Qed.

Lemma X6_docker_container_without_status_witness :
  let c := mkContainer "c1" [("kernel_id", "abc")] (Some "k1") None PNone None in
  let r := DockerProcessProxy.get_container_status "bridge" (Some 3)
             (docker_world [c]) in
  fst r = Ok EmptyString /\
  container_name (self (snd r)) = Some "k1" /\
  same_address (docker_world [c]) (snd r).
Proof.
  intros c.
  apply (X6_docker_container_without_status "bridge" (Some 3)
           (docker_world [c]) c); reflexivity.
Defined.

(** X7.  When the only task with desired state running has an ["ID"] and a
    ["Status"] that is [None] or empty, [get_container_status] returns the
    empty string without looking for a ["State"], captures no address, and
    [container_name] is the name of the service. *)
Theorem X7_swarm_task_without_status it w s task tid status :
  services_list (kernel_id (self w)) (client w) = [s] ->
  service_tasks "running" s = [task] ->
  getitem task "ID" = Ok tid ->
  getitem task "Status" = Ok status ->
  truthy status = false ->
  let r := DockerSwarmProcessProxy.get_container_status it w in
  fst r = Ok EmptyString /\
  container_name (self (snd r)) = Some (s_name s) /\
  same_address w (snd r).
Proof.
  intros H Ht Hid Hst Hf.
  unfold DockerSwarmProcessProxy.get_container_status,
    DockerSwarmProcessProxy._get_task, same_address.
  cbv beta delta [bind]. rewrite (get_service_one _ s) by assumption.
  rewrite Ht. run. cbn.
  rewrite (getitem_truthy _ _ _ Hid), Hid, Hst. cbn. rewrite Hf.
  destruct (truthy_int it); cbn; repeat split.
Qed.

Lemma X7_swarm_task_without_status_witness :
  let task := PDict [("ID", PStr "t1"); ("DesiredState", PStr "running");
                     ("Status", PDict [])] in
  let w := swarm_world [kernel_service "s1" "svc" [task] None] in
  let r := DockerSwarmProcessProxy.get_container_status None w in
  fst r = Ok EmptyString /\
  container_name (self (snd r)) = Some "svc" /\
  same_address w (snd r).
Proof.
  intros task w.
  apply (X7_swarm_task_without_status None w
           (kernel_service "s1" "svc" [task] None) task
           (PStr "t1") (PDict []));
    reflexivity.
Defined.

(** ** A running task and its network attachments *)

(** X8.  For a proxy whose [assigned_host] is still empty or [None]: when the
    running task has an empty list of network attachments,
    [get_container_status] returns "running" and captures nothing, so that a
    later poll looks again. *)
Theorem X8_swarm_running_without_attachment it w s task tid status state atts :
  services_list (kernel_id (self w)) (client w) = [s] ->
  service_tasks "running" s = [task] ->
  getitem task "ID" = Ok tid ->
  getitem task "Status" = Ok status ->
  getitem status "State" = Ok (PStr state) ->
  lower state = "running" ->
  truthy_str (assigned_host (self w)) = false ->
  getitem task "NetworksAttachments" = Ok atts ->
  py_len atts = Ok 0%nat ->
  let r := DockerSwarmProcessProxy.get_container_status it w in
  fst r = Ok "running" /\ same_address w (snd r).
Proof.
  intros Hs Ht Hid Hst Hstate Hrun Hhost Hatt Hlen.
  unfold DockerSwarmProcessProxy.get_container_status,
    DockerSwarmProcessProxy._get_task, DockerSwarmProcessProxy.capture_ip,
    same_address.
  cbv beta delta [bind]. rewrite (get_service_one _ s) by assumption.
  rewrite Ht. run. cbn.
  rewrite (getitem_truthy _ _ _ Hid), Hid, Hst. cbn.
  rewrite (getitem_truthy _ _ _ Hstate), Hstate. cbn.
  rewrite Hrun, Hhost. cbn. rewrite Hatt. cbn. rewrite Hlen. cbn.
  destruct (truthy_int it); cbn; repeat split.
Qed.

Lemma X8_swarm_running_without_attachment_witness :
  let w := swarm_world [unattached_service] in
  let r := DockerSwarmProcessProxy.get_container_status None w in
  fst r = Ok "running" /\ same_address w (snd r).
Proof.
  intros w.
  apply (X8_swarm_running_without_attachment None w unattached_service
           (swarm_task "t1" "running" "Running" (Some (PList [])))
           (PStr "t1") (PDict [("State", PStr "Running")]) "Running" (PList []));
    reflexivity.
Defined.

(** X9.  For a proxy whose [assigned_host] is still empty or [None]: when the
    running task is a dictionary without the key ["NetworksAttachments"],
    [get_container_status] raises a [KeyError] for that key instead of
    returning "running"; the address fields are as they were, and
    [container_name] is the name of the service. *)
Theorem X9_swarm_running_without_attachments_key it w s d tid status state :
  services_list (kernel_id (self w)) (client w) = [s] ->
  service_tasks "running" s = [PDict d] ->
  getitem (PDict d) "ID" = Ok tid ->
  getitem (PDict d) "Status" = Ok status ->
  getitem status "State" = Ok (PStr state) ->
  lower state = "running" ->
  truthy_str (assigned_host (self w)) = false ->
  dict_lookup "NetworksAttachments" d = None ->
  let r := DockerSwarmProcessProxy.get_container_status it w in
  fst r = Raise (KeyError "NetworksAttachments") /\
  container_name (self (snd r)) = Some (s_name s) /\
  same_address w (snd r).
Proof.
  intros Hs Ht Hid Hst Hstate Hrun Hhost Hd.
  unfold DockerSwarmProcessProxy.get_container_status,
    DockerSwarmProcessProxy._get_task, DockerSwarmProcessProxy.capture_ip,
    same_address.
  cbv beta delta [bind]. rewrite (get_service_one _ s) by assumption.
  rewrite Ht. run. cbn -[dict_lookup getitem truthy].
  rewrite (getitem_truthy _ _ _ Hid), Hid, Hst.
  cbn -[dict_lookup getitem truthy].
  rewrite (getitem_truthy _ _ _ Hstate), Hstate.
  cbn -[dict_lookup getitem truthy].
  rewrite Hrun, Hhost. cbn -[dict_lookup]. rewrite Hd. cbn.
  repeat split.
Qed.

Lemma X9_swarm_running_without_attachments_key_witness :
  let w := swarm_world [bare_service] in
  let r := DockerSwarmProcessProxy.get_container_status None w in
  fst r = Raise (KeyError "NetworksAttachments") /\
  container_name (self (snd r)) = Some "svc" /\
  same_address w (snd r).
Proof.
  intros w.
  apply (X9_swarm_running_without_attachments_key None w bare_service
           [("ID", PStr "t1"); ("DesiredState", PStr "running");
            ("Status", PDict [("State", PStr "Running")])]
           (PStr "t1") (PDict [("State", PStr "Running")]) "Running");
    reflexivity.
Defined.

(** ** The address of a running container *)

(** X10.  For a proxy whose [assigned_host] is still empty or [None]: when the
    only container listed is running and the configured network is a key of
    its ["Networks"] whose value is a dictionary, [get_container_status]
    returns "running", stores in [assigned_ip] what that dictionary holds
    under ["IPAddress"] ([None] when it holds nothing), and stores the name of
    the container in [assigned_host]. *)
Theorem X10_docker_address_of_configured_network net it w c s ns d info :
  containers_list (kernel_id (self w)) (client w) = [c] ->
  c_status c = Some s ->
  lower s = "running" ->
  truthy_str (assigned_host (self w)) = false ->
  dict_get (c_attrs c) "NetworkSettings" = Ok (PDict ns) ->
  dict_get (PDict ns) "Networks" = Ok (PDict d) ->
  dict_lookup net d = Some (PDict info) ->
  let r := DockerProcessProxy.get_container_status net it w in
  fst r = Ok "running" /\
  Ok (assigned_ip (self (snd r))) = dict_get (PDict info) "IPAddress" /\
  assigned_host (self (snd r)) = c_name c.
Proof.
  intros H Hs Hrun Hhost Hattrs Hnets Hd.
  exact (docker_capture_configured_network net it w c s ns (PDict d)
           H Hs Hrun Hhost Hattrs Hnets d info eq_refl Hd).
Qed.

Lemma X10_docker_address_of_configured_network_witness :
  let c := kernel_container "c1" "k1" "Running"
             (settings "172.17.0.2"
                [("other", one_net "10.1.0.5"); ("bridge", one_net "172.17.0.9")])
             None in
  let r := DockerProcessProxy.get_container_status "bridge" None
             (docker_world [c]) in
  fst r = Ok "running" /\
  Ok (assigned_ip (self (snd r))) = dict_get (one_net "172.17.0.9") "IPAddress" /\
  assigned_host (self (snd r)) = Some "k1".
Proof.
  intros c.
  apply (X10_docker_address_of_configured_network "bridge" None
           (docker_world [c]) c "Running"
           [("IPAddress", PStr "172.17.0.2");
            ("Networks",
             PDict [("other", one_net "10.1.0.5");
                    ("bridge", one_net "172.17.0.9")])]
           [("other", one_net "10.1.0.5"); ("bridge", one_net "172.17.0.9")]
           [("IPAddress", PStr "172.17.0.9")]);
    reflexivity.
Defined.

(** X11.  For a proxy whose [assigned_host] is still empty or [None]: when the
    only container listed is running and its ["Networks"] is an empty
    dictionary, [get_container_status] returns "running", stores in
    [assigned_ip] what ["NetworkSettings"] holds under ["IPAddress"], stores
    the name of the container in [assigned_host], and logs a warning that
    names the configured network. *)
Theorem X11_docker_default_address_without_network net it w c s ns :
  containers_list (kernel_id (self w)) (client w) = [c] ->
  c_status c = Some s ->
  lower s = "running" ->
  truthy_str (assigned_host (self w)) = false ->
  dict_get (c_attrs c) "NetworkSettings" = Ok (PDict ns) ->
  dict_get (PDict ns) "Networks" = Ok (PDict []) ->
  let r := DockerProcessProxy.get_container_status net it w in
  fst r = Ok "running" /\
  Ok (assigned_ip (self (snd r))) = dict_get (PDict ns) "IPAddress" /\
  assigned_host (self (snd r)) = c_name c /\
  exists records ip,
    log (self (snd r)) = log (self w) ++ records /\
    In (WARNING,
        [Lit "Docker network '"; Fmt (PStr net);
         Lit "' could not be located in container attributes - using assigned_ip '";
         Fmt ip; Lit "'."]) records.
Proof.
  intros H Hs Hrun Hhost Hattrs Hnets.
  exact (docker_capture_no_network net it w c s ns (PDict [])
           H Hs Hrun Hhost Hattrs Hnets eq_refl).
Qed.

Lemma X11_docker_default_address_without_network_witness :
  let c := kernel_container "c1" "k1" "running" (settings "172.17.0.2" []) None in
  let r := DockerProcessProxy.get_container_status "bridge" None
             (docker_world [c]) in
  fst r = Ok "running" /\
  Ok (assigned_ip (self (snd r))) = Ok (PStr "172.17.0.2") /\
  assigned_host (self (snd r)) = Some "k1".
Proof.
  intros c.
  destruct (X11_docker_default_address_without_network "bridge" None
              (docker_world [c]) c "running"
              [("IPAddress", PStr "172.17.0.2"); ("Networks", PDict [])]
              eq_refl eq_refl eq_refl eq_refl eq_refl eq_refl)
    as (H1 & H2 & H3 & _).
  split; [exact H1|]. split; [exact H2 | exact H3].
Defined.

(** X12.  For a proxy whose [assigned_host] is still empty or [None]: when the
    only container listed is running and its ["Networks"] is a dictionary
    that is not empty and does not have the configured network as a key,
    [get_container_status] raises [AttributeError]; by then [assigned_ip]
    holds what ["NetworkSettings"] has under ["IPAddress"], while
    [assigned_host] and the log are as they were. *)
Theorem X12_docker_other_networks_only net it w c s ns kv d :
  containers_list (kernel_id (self w)) (client w) = [c] ->
  c_status c = Some s ->
  lower s = "running" ->
  truthy_str (assigned_host (self w)) = false ->
  dict_get (c_attrs c) "NetworkSettings" = Ok (PDict ns) ->
  dict_get (PDict ns) "Networks" = Ok (PDict (kv :: d)) ->
  dict_lookup net (kv :: d) = None ->
  let r := DockerProcessProxy.get_container_status net it w in
  fst r = Raise AttributeError /\
  Ok (assigned_ip (self (snd r))) = dict_get (PDict ns) "IPAddress" /\
  assigned_host (self (snd r)) = assigned_host (self w) /\
  log (self (snd r)) = log (self w).
Proof.
  intros H Hs Hrun Hhost Hattrs Hnets Hd.
  exact (docker_capture_other_network net it w c s ns (PDict (kv :: d))
           H Hs Hrun Hhost Hattrs Hnets kv d eq_refl Hd).
Qed.

Lemma X12_docker_other_networks_only_witness :
  let r := DockerProcessProxy.get_container_status "bridge" (Some 1)
             (docker_world [elsewhere]) in
  fst r = Raise AttributeError /\
  Ok (assigned_ip (self (snd r))) = Ok (PStr "172.17.0.2") /\
  assigned_host (self (snd r)) = None /\
  log (self (snd r)) = [].
Proof.
  apply (X12_docker_other_networks_only "bridge" (Some 1)
           (docker_world [elsewhere]) elsewhere "running"
           [("IPAddress", PStr "172.17.0.2");
            ("Networks", PDict [("other", one_net "10.1.0.5")])]
           ("other", one_net "10.1.0.5") []);
    reflexivity.
Defined.

(** X13.  For a proxy whose [assigned_host] is still empty or [None]: when the
    only container listed is running and what its [attrs] give for
    ["NetworkSettings"] is not a dictionary ([None] when the key is missing),
    [get_container_status] raises [AttributeError] and stores no address. *)
Theorem X13_docker_without_network_settings net it w c s v :
  containers_list (kernel_id (self w)) (client w) = [c] ->
  c_status c = Some s ->
  lower s = "running" ->
  truthy_str (assigned_host (self w)) = false ->
  dict_get (c_attrs c) "NetworkSettings" = Ok v ->
  (forall d, v <> PDict d) ->
  let r := DockerProcessProxy.get_container_status net it w in
  fst r = Raise AttributeError /\ same_address w (snd r).
Proof.
  intros H Hs Hrun Hhost Hattrs Hv.
  unfold DockerProcessProxy.get_container_status,
    DockerProcessProxy.capture_ip, same_address.
  cbv beta delta [bind]. rewrite (get_container_one _ c) by assumption.
  run. rewrite Hs. cbn.
  assert (Hn : nonempty_string s = true)
    by (destruct s; [discriminate Hrun | reflexivity]).
  rewrite Hn, Hrun. cbn. rewrite Hhost. cbn. rewrite Hattrs.
  destruct v as [| | | |d]; [| | | |destruct (Hv d eq_refl)];
    cbn; repeat split.
Qed.

Lemma X13_docker_without_network_settings_witness :
  let c := kernel_container "c1" "k1" "running" (PDict []) None in
  let r := DockerProcessProxy.get_container_status "bridge" None
             (docker_world [c]) in
  fst r = Raise AttributeError /\ same_address (docker_world [c]) (snd r).
Proof.
  intros c.
  apply (X13_docker_without_network_settings "bridge" None
           (docker_world [c]) c "running" PNone);
    try reflexivity.
  intros d. discriminate.
Defined.

(** X14.  Every [get_container_status] of a container proxy that finds exactly
    one container stores its name in [container_name], whether the call
    returns or raises. *)
Theorem X14_docker_poll_stores_name net it w c :
  containers_list (kernel_id (self w)) (client w) = [c] ->
  container_name (self (snd (DockerProcessProxy.get_container_status net it w)))
    = c_name c.
Proof.
  intros H. unfold DockerProcessProxy.get_container_status,
    DockerProcessProxy.capture_ip.
  cbv beta delta [bind]. rewrite (get_container_one _ c) by assumption. run.
  repeat (split_inner; run); reflexivity.
Qed.

Lemma X14_docker_poll_stores_name_witness :
  container_name
    (self (snd (DockerProcessProxy.get_container_status "bridge" None
                  (docker_world [elsewhere]))))
  = Some "k1".
Proof.
  apply (X14_docker_poll_stores_name "bridge" None (docker_world [elsewhere])
           elsewhere).
  reflexivity.
Defined.

(** ** The poll counter, and polling again *)

Ltac unfold_status :=
  unfold get_container_status,
    DockerProcessProxy.get_container_status,
    DockerProcessProxy._get_container, DockerProcessProxy.capture_ip,
    DockerSwarmProcessProxy.get_container_status,
    DockerSwarmProcessProxy._get_task, DockerSwarmProcessProxy._get_service,
    DockerSwarmProcessProxy.capture_ip.

(** [split_inner] on a hypothesis, and the replay in the goal of the tests
    that a first run has already decided. *)
Ltac split_inner_in H :=
  match type of H with
  | context [match ?x with _ => _ end] =>
      lazymatch x with
      | context [match _ with _ => _ end] => fail
      | _ => destruct x eqn:?
      end
  end.

Ltac replay :=
  repeat (match goal with
          | E : ?x = _ |- context [match ?x with _ => _ end] => rewrite E
          | E : ?x = _ :: _ |- context [?x] => rewrite E
          end;
          cbn [fst snd self client cls kernel_id container_name assigned_ip
               assigned_host log truthy_int]).

Lemma same_but_log_sym w w' : same_but_log w w' -> same_but_log w' w.
Proof. unfold same_but_log. intros (? & ? & ? & ? & ? & ?). auto 10. Qed.

Lemma same_but_log_trans w1 w2 w3 :
  same_but_log w1 w2 -> same_but_log w2 w3 -> same_but_log w1 w3.
Proof.
  unfold same_but_log.
  intros (? & ? & ? & ? & ? & ?) (? & ? & ? & ? & ? & ?).
  repeat split; congruence.
Qed.

Lemma status_iteration net it w :
  let quiet := get_container_status net None w in
  let r := get_container_status net it w in
  fst r = fst quiet /\
  same_but_log (snd quiet) (snd r) /\
  (truthy_int it = false -> r = quiet) /\
  (forall e, fst r = Raise e -> r = quiet) /\
  (truthy_int it = true ->
   forall phase, fst r = Ok phase ->
   exists record,
     log (self (snd r)) =
       log (self (snd quiet)) ++ [(DEBUG, Fmt (of_int it) :: record)]).
Proof.
  unfold same_but_log. destruct w as [e [c kid name ip host lg]].
  unfold_status. cbn [self cls]. destruct c; run.
  all: repeat (split_inner; run).
  all: repeat split; try congruence; try discriminate; intros; eexists;
    reflexivity.
Qed.

Lemma status_ignores_log net it w1 w2 :
  same_but_log w1 w2 ->
  let r1 := get_container_status net it w1 in
  let r2 := get_container_status net it w2 in
  fst r2 = fst r1 /\ same_but_log (snd r1) (snd r2).
Proof.
  unfold same_but_log. destruct w1 as [e [c kid name ip host lg]].
  destruct w2 as [e2 [c2 kid2 name2 ip2 host2 lg2]]. cbn.
  intros (-> & -> & -> & -> & -> & ->).
  unfold_status. cbn [self cls]. destruct c; run.
  all: repeat (split_inner; run).
  all: repeat split.
Qed.

Lemma status_twice_quiet net w :
  let r1 := get_container_status net None w in
  let r2 := get_container_status net None (snd r1) in
  fst r2 = fst r1 /\ same_but_log (snd r1) (snd r2).
Proof.
  cbv zeta. destruct (get_container_status net None w) as [r1 w1] eqn:E1.
  cbn [fst snd]. unfold same_but_log.
  destruct w as [e [c kid name ip host lg]].
  revert E1. unfold_status. cbn [self cls truthy_int].
  destruct c; run; intros E1.
  all: repeat (split_inner_in E1; run).
  all: injection E1 as <- <-.
  all: cbn [self cls]; run; replay.
  all: repeat (split_inner; run; replay).
  all: repeat split; congruence.
Qed.

(** X15.  The argument [iteration] of [get_container_status] decides nothing
    but one log record: the call returns or raises the same as with [None],
    and leaves the same engine and the same proxy, the log apart.  With
    [None] or [0], and whenever the call raises, even the log is the same;
    otherwise a call that returns has appended one more debug record, which
    starts with the iteration. *)
Theorem X15_iteration_only_logs net it w :
  let quiet := get_container_status net None w in
  let r := get_container_status net it w in
  fst r = fst quiet /\
  same_but_log (snd quiet) (snd r) /\
  (truthy_int it = false -> r = quiet) /\
  (forall e, fst r = Raise e -> r = quiet) /\
  (truthy_int it = true ->
   forall phase, fst r = Ok phase ->
   exists record,
     log (self (snd r)) =
       log (self (snd quiet)) ++ [(DEBUG, Fmt (of_int it) :: record)]).
Proof. exact (status_iteration net it w). Qed.

Lemma X15_iteration_only_logs_witness :
  let w := docker_world [named "172.17.0.2"] in
  get_container_status "bridge" (Some 0) w = get_container_status "bridge" None w /\
  exists record,
    log (self (snd (get_container_status "bridge" (Some 4) w))) =
      log (self (snd (get_container_status "bridge" None w)))
      ++ [(DEBUG, Fmt (PInt 4) :: record)].
Proof.
  intros w. split.
  - apply (proj1 (proj2 (proj2 (X15_iteration_only_logs "bridge" (Some 0) w)))).
    reflexivity.
  - apply (proj2 (proj2 (proj2 (proj2
             (X15_iteration_only_logs "bridge" (Some 4) w)))) eq_refl "running").
    reflexivity.
Defined.

(** X16.  Polling again changes nothing when the engine has not moved: a
    second [get_container_status] made straight after a first one, with any
    two iterations, returns or raises what the first did and leaves the
    proxy as the first left it, the log apart. *)
Theorem X16_polling_again net it it' w :
  let r1 := get_container_status net it w in
  let r2 := get_container_status net it' (snd r1) in
  fst r2 = fst r1 /\ same_but_log (snd r1) (snd r2).
Proof.
  cbv zeta.
  destruct (status_iteration net it w) as (A1 & A2 & _).
  destruct (status_twice_quiet net w) as (B1 & B2).
  destruct (status_ignores_log net it' _ _ A2) as (C1 & C2).
  destruct (status_iteration net it' (snd (get_container_status net None w)))
    as (D1 & D2 & _).
  cbv zeta in *. split.
  - congruence.
  - apply same_but_log_trans with (snd (get_container_status net None w));
      [apply same_but_log_sym; exact A2|].
    eapply same_but_log_trans; [exact B2|].
    eapply same_but_log_trans; [exact D2 | exact C2].
Qed.

(** ** Polling after a termination *)

(** X17.  After a [terminate_container_resources] that returned the value of
    success, a [get_container_status] made straight after returns the empty
    string and does not raise, and [assigned_ip] and [assigned_host] are
    still what they were before the termination. *)
Theorem X17_poll_after_termination net it w :
  fst (terminate_container_resources w) = Ok None ->
  let w' := snd (terminate_container_resources w) in
  fst (get_container_status net it w') = Ok EmptyString /\
  same_address w (snd (get_container_status net it w')).
Proof.
  cbv zeta. destruct (cls (self w)) eqn:E.
  - rewrite terminate_docker by assumption. intros H.
    destruct (docker_terminate_success w H) as (_ & Hc & Hl).
    destruct (docker_terminate_frame w) as ((Hip & Hhost) & _).
    rewrite E in Hc. rewrite get_status_docker by assumption.
    destruct (docker_status_none net it _ Hl) as (Hr & Hip' & Hhost').
    split; [exact Hr|]. split; congruence.
  - rewrite terminate_swarm by assumption. intros H.
    destruct (swarm_terminate_success w H) as (_ & Hc & Hl).
    destruct (swarm_terminate_frame w) as ((Hip & Hhost) & _).
    rewrite E in Hc. rewrite get_status_swarm by assumption.
    destruct (swarm_status_no_service it _ Hl) as (Hr & Hip' & Hhost').
    split; [exact Hr|]. split; congruence.
Qed.

Lemma X17_poll_after_termination_witness :
  let w := with_client (mkEngine [named "172.17.0.2"] [])
             (snd (get_container_status "bridge" None
                     (docker_world [named "172.17.0.2"]))) in
  let w' := snd (terminate_container_resources w) in
  fst (get_container_status "bridge" None w') = Ok EmptyString /\
  same_address w (snd (get_container_status "bridge" None w')).
Proof.
  intros w.
  apply (X17_poll_after_termination "bridge" None w). reflexivity.
Defined.

(** ** Launching twice *)

(** X18.  The environment that [launch_process] hands on does not depend on
    an earlier launch through either class: the mode and the network written
    last replace the ones written before, and nothing else is added. *)
Theorem X18_launch_env_overwrites_earlier c net c' net' (env : gmap string string) :
  launch_env c net (launch_env c' net' env) = launch_env c net env.
Proof.
  apply map_eq. intros k.
  destruct c, c'; unfold launch_env, DockerProcessProxy.launch_env,
    DockerSwarmProcessProxy.launch_env.
  all: destruct (decide (k = "EG_DOCKER_MODE")) as [->|];
    [|destruct (decide (k = "EG_DOCKER_NETWORK")) as [->|]];
    simplify_map_eq; reflexivity.
Qed.

(** ** Termination and the tasks of a service *)

(** X19.  [terminate_container_resources] of a service proxy does not depend
    on the tasks of the service: in front of two engines that list one
    service each, equal in name and in how its removal is answered, the call
    returns the same value and leaves the same proxy. *)
Theorem X19_swarm_terminate_ignores_tasks w e' s s' :
  services_list (kernel_id (self w)) (client w) = [s] ->
  services_list (kernel_id (self w)) e' = [s'] ->
  s_name s' = s_name s ->
  s_remove s' = s_remove s ->
  let r := DockerSwarmProcessProxy.terminate_container_resources w in
  let r' := DockerSwarmProcessProxy.terminate_container_resources
              (with_client e' w) in
  fst r' = fst r /\ self (snd r') = self (snd r).
Proof.
  intros H H' Hname Hremove.
  unfold DockerSwarmProcessProxy.terminate_container_resources.
  cbv beta delta [bind].
  rewrite (get_service_one w s) by assumption.
  rewrite (get_service_one (with_client e' w) s') by assumption.
  run. rewrite Hremove, Hname.
  destruct (s_remove s) as [e|]; [destruct (is_NotFound e)|];
    cbn; split; reflexivity.
Qed.

Lemma X19_swarm_terminate_ignores_tasks_witness :
  let w := swarm_world [doubled_service] in
  let e' := mkEngine [] [kernel_service "s1" "svc" [] None] in
  fst (DockerSwarmProcessProxy.terminate_container_resources (with_client e' w))
    = fst (DockerSwarmProcessProxy.terminate_container_resources w) /\
  self (snd (DockerSwarmProcessProxy.terminate_container_resources
               (with_client e' w)))
    = self (snd (DockerSwarmProcessProxy.terminate_container_resources w)).
Proof.
  intros w e'.
  apply (X19_swarm_terminate_ignores_tasks w e' doubled_service
           (kernel_service "s1" "svc" [] None));
    reflexivity.
Defined.

(** ** Polls that cannot raise *)

(** X20.  Once [assigned_host] of a container proxy holds a non-empty string,
    [get_container_status] returns a phase and does not raise as long as the
    engine lists at most one container, whatever the [attrs] of that
    container are. *)
Theorem X20_docker_poll_with_host_returns net it w :
  truthy_str (assigned_host (self w)) = true ->
  (length (containers_list (kernel_id (self w)) (client w)) <= 1)%nat ->
  exists phase,
    fst (DockerProcessProxy.get_container_status net it w) = Ok phase.
Proof.
  destruct w as [e [c kid name ip host lg]].
  cbn [self client kernel_id assigned_host].
  intros Hhost Hlen.
  unfold DockerProcessProxy.get_container_status,
    DockerProcessProxy._get_container, DockerProcessProxy.capture_ip. run.
  repeat (split_inner; run); try (eexists; reflexivity).
  all: try discriminate.
  all: try (simpl in Hlen; lia).
  all: try (use_tests; congruence).
  - destruct (c_status c0); [discriminate Heqr | discriminate Heqb0].
  - match goal with
    | H : (1 <? _)%nat = true |- _ => apply Nat.ltb_lt in H; lia
    end.
Qed.

Lemma X20_docker_poll_with_host_returns_witness :
  let w := with_client (mkEngine [elsewhere] [])
             (snd (get_container_status "bridge" None
                     (docker_world [named "172.17.0.2"]))) in
  exists phase,
    fst (DockerProcessProxy.get_container_status "bridge" None w) = Ok phase.
Proof.
  intros w.
  apply (X20_docker_poll_with_host_returns "bridge" None w).
  - reflexivity.
  - simpl. lia.
Defined.
